(** * AkComponentCallbackManager: the registry of audio-event callback packages

    A shallow embedding of
    [Plugins/Wwise/Source/AkAudio/Private/AkComponentCallbackManager.cpp].

    The C++ code works on a process-wide state: the static [Instance]
    pointer, the manager objects (each owning a
    [GameObjectToPackagesMap]), the callback packages allocated with
    [new] and released with [delete], and the calls it makes to its
    environment (the log, the sound engine, user callbacks, the game
    thread).  That state is the record [World]; every function of the
    source is a computation in the monad [M], which threads a [World]
    and stops with [Undefined] where C++ gives the program no meaning
    (reading through a dangling pointer, deleting a pointer twice).

    One thread of control is modelled.  A [FScopeLock] shows as a pair
    of events around its block, so the order of locked and unlocked
    steps of a call can be read off the trace.  A user callback acts on
    the callback info it is handed and on nothing else. *)

From Stdlib Require Import NArith String List.
From stdpp Require Import base option list gmap sets fin_sets.

Local Open Scope N_scope.

(** ** Data *)

(** Pointers are addresses; address [0] is [nullptr]. *)
Abbreviation addr := N.
Definition nullptr : addr := 0.
Arguments nullptr : simpl never.

Abbreviation AkGameObjectID := N.
Abbreviation AkCallbackType := N.
Abbreviation uint32 := N.

(** [AK_EndOfEvent] is the first bit of the sound engine's
    [AkCallbackType] bit mask. *)
Definition AK_EndOfEvent : AkCallbackType := 1.

(** The part of [AkCallbackInfo] the manager reads and writes. *)
Record AkCallbackInfo := mkInfo {
  pCookie : addr;
  gameObjID : AkGameObjectID
}.

Definition set_pCookie (c : addr) (i : AkCallbackInfo) : AkCallbackInfo :=
  {| pCookie := c; gameObjID := gameObjID i |}.

(** A user callback receives the event type and a pointer to the
    callback info; what it leaves in the info is its result. *)
Definition AkCallbackFunc := AkCallbackType → AkCallbackInfo → AkCallbackInfo.

(** The three package classes behind [IAkUserEventCallbackPackage].  A
    null function pointer, an unbound delegate are [None]; every
    package carries the [uUserFlags] of its base class. *)
Inductive IAkUserEventCallbackPackage :=
| FAkFunctionPtrEventCallbackPackage
    (pfnUserCallback : option AkCallbackFunc) (pUserCookie : addr)
    (flags : uint32)
| FAkBlueprintDelegateEventCallbackPackage
    (BlueprintCallback : option N) (flags : uint32)
| FAkLatentActionEventCallbackPackage
    (EndOfEventLatentAction : addr) (flags : uint32).

Definition uUserFlags (p : IAkUserEventCallbackPackage) : uint32 :=
  match p with
  | FAkFunctionPtrEventCallbackPackage _ _ f => f
  | FAkBlueprintDelegateEventCallbackPackage _ f => f
  | FAkLatentActionEventCallbackPackage _ f => f
  end.

(** [struct FAkComponentCallbackManager_Constants] *)
Inductive Optimize := MemoryUsage | Speed.
Definition Optimize_Value : Optimize := MemoryUsage.
Definition ReserveSize : N := 8.

Definition Optimize_eqb (a b : Optimize) : bool :=
  match a, b with
  | MemoryUsage, MemoryUsage | Speed, Speed => true
  | _, _ => false
  end.

(** [PackageSet] is a [TSet] of package pointers, the map a [TMap]
    from game object to its set. *)
Abbreviation PackageSet := (gset addr).
Abbreviation PackagesMap := (gmap AkGameObjectID (gset addr)).

(** What the code does to its environment, in the order it does it. *)
Inductive Event :=
| UE_LOG_Error (text : string)
| ScopeLock_enter (mgr : addr)
| ScopeLock_exit (mgr : addr)
| CancelEventCallbackGameObject (g : AkGameObjectID)
| call_RemovePackageFromSet (g : AkGameObjectID) (p : addr)
| call_HandleAction (p : addr) (eType : AkCallbackType)
| ret_HandleAction (p : addr)
| call_pfnUserCallback (eType : AkCallbackType) (info : AkCallbackInfo)
| AsyncTask_GameThread (delegate : N) (eType : AkCallbackType)
    (info : AkCallbackInfo)
| operator_delete (p : addr).

Record World := mkWorld {
  Instance : addr;
  managers : gmap addr (gmap AkGameObjectID (gset addr));
  packages : gmap addr IAkUserEventCallbackPackage;
  EventFinished : gset addr;
  trace : list Event
}.

Definition empty_world : World :=
  {| Instance := nullptr; managers := ∅; packages := ∅;
     EventFinished := ∅; trace := [] |}.

(** ** The monad *)

Inductive UB := UseAfterFree (p : addr) | DoubleFree (p : addr).

Inductive Result (A : Type) :=
| Done (a : A) (w : World)
| Undefined (why : UB) (w : World).
Arguments Done {A} a w.
Arguments Undefined {A} why w.

Definition M (A : Type) := World → Result A.

Definition world_of {A} (r : Result A) : World :=
  match r with Done _ w => w | Undefined _ w => w end.

Global Instance M_ret : MRet M := λ A a w, Done a w.
Global Instance M_bind : MBind M := λ A B f m w,
  match m w with
  | Done a w' => f a w'
  | Undefined why w' => Undefined why w'
  end.

Definition get_world : M World := λ w, Done w w.

Definition emit (e : Event) : M unit := λ w,
  Done tt {| Instance := Instance w; managers := managers w;
             packages := packages w; EventFinished := EventFinished w;
             trace := trace w ++ [e] |}.

Definition set_Instance (a : addr) : M unit := λ w,
  Done tt {| Instance := a; managers := managers w;
             packages := packages w; EventFinished := EventFinished w;
             trace := trace w |}.

Definition set_managers (ms : gmap addr (gmap AkGameObjectID (gset addr)))
  : M unit := λ w,
  Done tt {| Instance := Instance w; managers := ms;
             packages := packages w; EventFinished := EventFinished w;
             trace := trace w |}.

Definition set_packages (h : gmap addr IAkUserEventCallbackPackage)
  : M unit := λ w,
  Done tt {| Instance := Instance w; managers := managers w;
             packages := h; EventFinished := EventFinished w;
             trace := trace w |}.

Definition set_EventFinished (s : gset addr) : M unit := λ w,
  Done tt {| Instance := Instance w; managers := managers w;
             packages := packages w; EventFinished := s;
             trace := trace w |}.

(** ** Memory *)

(** [this->GameObjectToPackagesMap]: the object must be alive. *)
Definition GameObjectToPackagesMap (this : addr) : M PackagesMap := λ w,
  match managers w !! this with
  | Some m => Done m w
  | None => Undefined (UseAfterFree this) w
  end.

Definition set_GameObjectToPackagesMap (this : addr) (m : PackagesMap)
  : M unit := λ w,
  match managers w !! this with
  | Some _ => set_managers (<[this := m]> (managers w)) w
  | None => Undefined (UseAfterFree this) w
  end.

(** [new]: the allocator hands out an address that is neither null nor
    in use; a released address may be handed out again. *)
Definition operator_new (pkg : IAkUserEventCallbackPackage) : M addr := λ w,
  let p := fresh ({[nullptr]} ∪ dom (packages w)) in
  (set_packages (<[p := pkg]> (packages w)) ;; mret p) w.

(** [delete p]: nothing for [nullptr], releases a live package, and has
    no meaning for an address that holds no package. *)
Definition delete (p : addr) : M unit := λ w,
  if decide (p = nullptr) then Done tt w
  else match packages w !! p with
       | Some _ => (emit (operator_delete p) ;;
                    set_packages (base.delete p (packages w))) w
       | None => Undefined (DoubleFree p) w
       end.

(** [p->...]: reading a package through its pointer. *)
Definition deref (p : addr) : M IAkUserEventCallbackPackage := λ w,
  match packages w !! p with
  | Some pkg => Done pkg w
  | None => Undefined (UseAfterFree p) w
  end.

Fixpoint delete_each (l : list addr) : M unit :=
  match l with
  | [] => mret tt
  | p :: l' => delete p ;; delete_each l'
  end.

(** [FScopeLock Lock(&this->CriticalSection)] around a block. *)
Definition FScopeLock {A} (this : addr) (body : M A) : M A :=
  emit (ScopeLock_enter this) ;;
  r ← body ;
  emit (ScopeLock_exit this) ;;
  mret r.

(** ** The callback packages *)

(** [FAkFunctionPtrEventCallbackPackage::HandleAction] *)
Definition FAkFunctionPtrEventCallbackPackage_HandleAction
    (this : addr) (pfnUserCallback : option AkCallbackFunc)
    (pUserCookie : addr) (in_eType : AkCallbackType)
    (in_pCallbackInfo : AkCallbackInfo) : M AkCallbackInfo :=
  match pfnUserCallback with
  | Some f =>
      let info1 := set_pCookie pUserCookie in_pCallbackInfo in
      emit (call_pfnUserCallback in_eType info1) ;;
      let info2 := f in_eType info1 in
      mret (set_pCookie this info2)
  | None => mret in_pCallbackInfo
  end.

(** [FAkBlueprintDelegateEventCallbackPackage::HandleAction]: the
    delegate and the info are captured and handed to the game thread. *)
Definition FAkBlueprintDelegateEventCallbackPackage_HandleAction
    (BlueprintCallback : option N) (in_eType : AkCallbackType)
    (in_pCallbackInfo : AkCallbackInfo) : M AkCallbackInfo :=
  match BlueprintCallback with
  | Some d =>
      emit (AsyncTask_GameThread d in_eType in_pCallbackInfo) ;;
      mret in_pCallbackInfo
  | None => mret in_pCallbackInfo
  end.

(** [FAkLatentActionEventCallbackPackage::HandleAction] *)
Definition FAkLatentActionEventCallbackPackage_HandleAction
    (EndOfEventLatentAction : addr) (in_eType : AkCallbackType)
    (in_pCallbackInfo : AkCallbackInfo) : M AkCallbackInfo :=
  if negb (EndOfEventLatentAction =? nullptr) then
    w ← get_world ;
    set_EventFinished ({[EndOfEventLatentAction]} ∪ EventFinished w) ;;
    mret in_pCallbackInfo
  else mret in_pCallbackInfo.

(** [pPackage->HandleAction(in_eType, in_pCallbackInfo)], the virtual
    call. *)
Definition HandleAction (pPackage : addr) (in_eType : AkCallbackType)
    (in_pCallbackInfo : AkCallbackInfo) : M AkCallbackInfo :=
  pkg ← deref pPackage ;
  emit (call_HandleAction pPackage in_eType) ;;
  info ← match pkg with
         | FAkFunctionPtrEventCallbackPackage f c _ =>
             FAkFunctionPtrEventCallbackPackage_HandleAction
               pPackage f c in_eType in_pCallbackInfo
         | FAkBlueprintDelegateEventCallbackPackage d _ =>
             FAkBlueprintDelegateEventCallbackPackage_HandleAction
               d in_eType in_pCallbackInfo
         | FAkLatentActionEventCallbackPackage a _ =>
             FAkLatentActionEventCallbackPackage_HandleAction
               a in_eType in_pCallbackInfo
         end ;
  emit (ret_HandleAction pPackage) ;;
  mret info.

(** ** The manager *)

Definition GetInstance : M addr := λ w, Done (Instance w) w.

(** [RemovePackageFromSet].  [in_pPackageSet] points into the map: it
    is the slot of the key it was found under, so the removal through
    it changes the map. *)
Definition RemovePackageFromSet (this : addr)
    (in_pPackageSet : AkGameObjectID) (in_pPackage : addr)
    (in_gameObjID : AkGameObjectID) : M unit :=
  emit (call_RemovePackageFromSet in_gameObjID in_pPackage) ;;
  m ← GameObjectToPackagesMap this ;
  let m1 := alter (λ s, s ∖ {[in_pPackage]}) in_pPackageSet m in
  set_GameObjectToPackagesMap this m1 ;;
  if Optimize_eqb Optimize_Value MemoryUsage then
    if (size (default ∅ (m1 !! in_pPackageSet)) =? 0)%nat
    then set_GameObjectToPackagesMap this (base.delete in_gameObjID m1)
    else mret tt
  else mret tt.

(** The block of [AkComponentCallback] that holds the lock; its result
    is [deletePackage]. *)
Definition AkComponentCallback_locked (inst : addr)
    (in_eType : AkCallbackType) (gameObjID : AkGameObjectID)
    (pPackage : addr) : M bool :=
  FScopeLock inst (
    m ← GameObjectToPackagesMap inst ;
    match m !! gameObjID with
    | Some _ =>
        if in_eType =? AK_EndOfEvent then
          RemovePackageFromSet inst gameObjID pPackage gameObjID ;;
          mret true
        else mret false
    | None => mret false
    end).

(** [AkComponentCallback], the function the sound engine calls.  The
    info is passed by pointer: the result is what the call leaves in
    it. *)
Definition AkComponentCallback (in_eType : AkCallbackType)
    (in_pCallbackInfo : AkCallbackInfo) : M AkCallbackInfo :=
  let pPackage := pCookie in_pCallbackInfo in
  inst ← GetInstance ;
  if negb (inst =? nullptr) && negb (pPackage =? nullptr) then
    let gameObjID := gameObjID in_pCallbackInfo in
    deletePackage ←
      AkComponentCallback_locked inst in_eType gameObjID pPackage ;
    pkg ← deref pPackage ;
    info ← (if negb (N.land (uUserFlags pkg) in_eType =? 0)
            then HandleAction pPackage in_eType in_pCallbackInfo
            else mret in_pCallbackInfo) ;
    (if deletePackage : bool then delete pPackage else mret tt) ;;
    mret info
  else mret in_pCallbackInfo.

(** The constructor; the map member starts empty. *)
Definition FAkComponentCallbackManager_ctor (this : addr) : M unit :=
  w ← get_world ;
  set_managers (<[this := ∅]> (managers w)) ;;
  (if negb (Instance w =? nullptr)
   then emit (UE_LOG_Error
     "FAkComponentCallbackManager has already been instantiated.")
   else mret tt) ;;
  set_Instance this.

(** The packages of a map, set by set. *)
Definition all_packages (m : PackagesMap) : list addr :=
  map_to_list m ≫= λ Item, elements Item.2.

(** The destructor; the members go with the object. *)
Definition FAkComponentCallbackManager_dtor (this : addr) : M unit :=
  m ← GameObjectToPackagesMap this ;
  delete_each (all_packages m) ;;
  set_Instance nullptr ;;
  w ← get_world ;
  set_managers (base.delete this (managers w)).

(** The body the three [CreateCallbackPackage] overloads share:
    [new], then [FindOrAdd(in_gameObjID).Add(pPackage)] under the
    lock. *)
Definition create_package (this : addr)
    (pkg : IAkUserEventCallbackPackage) (in_gameObjID : AkGameObjectID)
    : M addr :=
  pPackage ← operator_new pkg ;
  (if negb (pPackage =? nullptr) then
     FScopeLock this (
       m ← GameObjectToPackagesMap this ;
       set_GameObjectToPackagesMap this
         (<[in_gameObjID := {[pPackage]} ∪ default ∅ (m !! in_gameObjID)]> m))
   else mret tt) ;;
  mret pPackage.

Definition CreateCallbackPackage_FunctionPtr (this : addr)
    (in_cbFunc : option AkCallbackFunc) (in_Cookie : addr)
    (in_Flags : uint32) (in_gameObjID : AkGameObjectID) : M addr :=
  create_package this
    (FAkFunctionPtrEventCallbackPackage in_cbFunc in_Cookie in_Flags)
    in_gameObjID.

Definition CreateCallbackPackage_BlueprintDelegate (this : addr)
    (BlueprintCallback : option N) (in_Flags : uint32)
    (in_gameObjID : AkGameObjectID) : M addr :=
  create_package this
    (FAkBlueprintDelegateEventCallbackPackage BlueprintCallback in_Flags)
    in_gameObjID.

(** The flags of a latent-action package are set by its constructor,
    which the header gives; they are taken as [ctor_Flags]. *)
Definition CreateCallbackPackage_LatentAction (this : addr)
    (ctor_Flags : uint32) (LatentAction : addr)
    (in_gameObjID : AkGameObjectID) : M addr :=
  create_package this
    (FAkLatentActionEventCallbackPackage LatentAction ctor_Flags)
    in_gameObjID.

Definition RemoveCallbackPackage (this : addr) (in_Package : addr)
    (in_gameObjID : AkGameObjectID) : M unit :=
  FScopeLock this (
    m ← GameObjectToPackagesMap this ;
    match m !! in_gameObjID with
    | Some _ => RemovePackageFromSet this in_gameObjID in_Package in_gameObjID
    | None => mret tt
    end) ;;
  delete in_Package.

Definition RegisterGameObject (this : addr) (in_gameObjID : AkGameObjectID)
    : M unit :=
  if Optimize_eqb Optimize_Value Speed then
    FScopeLock this (
      m ← GameObjectToPackagesMap this ;
      set_GameObjectToPackagesMap this
        (<[in_gameObjID := default ∅ (m !! in_gameObjID)]> m))
  else mret tt.

Definition UnregisterGameObject (this : addr)
    (in_gameObjID : AkGameObjectID) : M unit :=
  emit (CancelEventCallbackGameObject in_gameObjID) ;;
  FScopeLock this (
    m ← GameObjectToPackagesMap this ;
    match m !! in_gameObjID with
    | Some s =>
        delete_each (elements s) ;;
        set_GameObjectToPackagesMap this (base.delete in_gameObjID m)
    | None => mret tt
    end).

Definition HasActiveEvents (this : addr) (in_gameObjID : AkGameObjectID)
    : M bool :=
  FScopeLock this (
    m ← GameObjectToPackagesMap this ;
    mret (match m !! in_gameObjID with
          | Some s => (0 <? size s)%nat
          | None => false
          end)).

(** ** Vocabulary of the statements *)

(** The set a map holds for [g]; no set counts as the empty set. *)
Definition packages_for (m : PackagesMap) (g : AkGameObjectID) : gset addr :=
  default ∅ (m !! g).

Definition PackageSet_of (this : addr) (g : AkGameObjectID) (w : World)
  : gset addr :=
  from_option (λ m, packages_for m g) ∅ (managers w !! this).

(** What [RemovePackageFromSet] leaves of a map when the set pointer
    is the slot of [g] itself, as at both call sites. *)
Definition erase_package (g : AkGameObjectID) (p : addr) (m : PackagesMap)
  : PackagesMap :=
  let m1 := alter (λ s, s ∖ {[p]}) g m in
  if (size (default ∅ (m1 !! g)) =? 0)%nat then base.delete g m1 else m1.

(** The value [AkComponentCallback] gives [deletePackage], and the
    world its locked block leaves. *)
Definition deletes (m : PackagesMap) (g : AkGameObjectID)
    (eType : AkCallbackType) : bool :=
  match m !! g with Some _ => eType =? AK_EndOfEvent | None => false end.

Definition after_locked (inst : addr) (eType : AkCallbackType)
    (g : AkGameObjectID) (p : addr) (m : PackagesMap) (w : World) : World :=
  {| Instance := Instance w;
     managers := if deletes m g eType
                 then <[inst := erase_package g p m]> (managers w)
                 else managers w;
     packages := packages w;
     EventFinished := EventFinished w;
     trace := trace w ++ ScopeLock_enter inst ::
                (if deletes m g eType
                 then [call_RemovePackageFromSet g p] else []) ++
                [ScopeLock_exit inst] |}.

(** No map of a live manager holds an empty set. *)
Definition no_empty_set (w : World) : Prop :=
  ∀ this m g s, managers w !! this = Some m → m !! g = Some s → s ≠ ∅.

(** The same of one map. *)
Definition map_ok (m : PackagesMap) : Prop :=
  ∀ g s, m !! g = Some s → s ≠ ∅.

(** A computation keeps a property of the world, whether it returns
    or stops. *)
Definition preserves {A} (P : World → Prop) (c : M A) : Prop :=
  ∀ w, P w → P (world_of (c w)).

(** A pointer to an allocated package. *)
Definition live (w : World) (p : addr) : Prop :=
  p ≠ nullptr ∧ is_Some (packages w !! p).

Global Instance live_dec w p : Decision (live w p).
Proof. unfold live. apply _. Defined.

(** Every package of the map is allocated, and no package is in the
    sets of two game objects. *)
Definition owned (w : World) (m : PackagesMap) : Prop :=
  Forall (live w) (all_packages m).

Definition unshared (m : PackagesMap) : Prop :=
  NoDup (all_packages m).

(** The phases of one [AkComponentCallback] call, by the events each
    may emit. *)
Definition locked_phase (e : Event) : bool :=
  match e with
  | ScopeLock_enter _ | ScopeLock_exit _ | call_RemovePackageFromSet _ _ => true
  | _ => false
  end.

Definition handler_phase (e : Event) : bool :=
  match e with
  | call_HandleAction _ _ | ret_HandleAction _
  | call_pfnUserCallback _ _ | AsyncTask_GameThread _ _ _ => true
  | _ => false
  end.

(** A client working on one game object: it creates packages and
    removes packages by handle. *)
Inductive ClientOp :=
| Create (pkg : IAkUserEventCallbackPackage)
| Remove (in_Package : addr).

(** The client's own book: a handle enters it when a create returns
    it and leaves it when it is removed. *)
Fixpoint run_ops (this : addr) (g : AkGameObjectID) (ops : list ClientOp)
    (ledger : gset addr) : M (gset addr) :=
  match ops with
  | [] => mret ledger
  | Create pkg :: ops' =>
      p ← create_package this pkg g ;
      run_ops this g ops' ({[p]} ∪ ledger)
  | Remove p :: ops' =>
      RemoveCallbackPackage this p g ;;
      run_ops this g ops' (ledger ∖ {[p]})
  end.

(** A client that removes only handles of its ledger.  The handle a
    create returns is the one [operator_new] picks for the allocated
    addresses [heap]. *)
Fixpoint well_targeted (ops : list ClientOp) (ledger heap : gset addr)
    : bool :=
  match ops with
  | [] => true
  | Create _ :: ops' =>
      let p := fresh ({[nullptr]} ∪ heap) in
      well_targeted ops' ({[p]} ∪ ledger) ({[p]} ∪ heap)
  | Remove p :: ops' =>
      bool_decide (p ∈ ledger) &&
      well_targeted ops' (ledger ∖ {[p]}) (heap ∖ {[p]})
  end.

(** Every entry point of the manager, as a call. *)
Inductive Call :=
| do_ctor (this : addr)
| do_dtor (this : addr)
| do_Create (this : addr) (pkg : IAkUserEventCallbackPackage)
    (g : AkGameObjectID)
| do_Remove (this : addr) (p : addr) (g : AkGameObjectID)
| do_Register (this : addr) (g : AkGameObjectID)
| do_Unregister (this : addr) (g : AkGameObjectID)
| do_HasActiveEvents (this : addr) (g : AkGameObjectID)
| do_AkComponentCallback (eType : AkCallbackType) (info : AkCallbackInfo).

Definition perform (c : Call) : M unit :=
  match c with
  | do_ctor this => FAkComponentCallbackManager_ctor this
  | do_dtor this => FAkComponentCallbackManager_dtor this
  | do_Create this pkg g => create_package this pkg g ;; mret tt
  | do_Remove this p g => RemoveCallbackPackage this p g
  | do_Register this g => RegisterGameObject this g
  | do_Unregister this g => UnregisterGameObject this g
  | do_HasActiveEvents this g => HasActiveEvents this g ;; mret tt
  | do_AkComponentCallback eType info =>
      AkComponentCallback eType info ;; mret tt
  end.

Fixpoint perform_all (cs : list Call) : M unit :=
  match cs with
  | [] => mret tt
  | c :: cs' => perform c ;; perform_all cs'
  end.

(** ** Worlds the examples start from *)

(** One manager at address 100, just constructed. *)
Definition world_100 : World :=
  world_of (FAkComponentCallbackManager_ctor 100 empty_world).

(** Two packages for game object 7 (they get the handles 1 and 2). *)
Definition world_7 : World :=
  world_of (
    (CreateCallbackPackage_LatentAction 100 AK_EndOfEvent 900 7 ;;
     CreateCallbackPackage_FunctionPtr 100 None 0 AK_EndOfEvent 7)
    world_100).

(** The same after [UnregisterGameObject(7)]. *)
Definition world_7_unregistered : World :=
  world_of (UnregisterGameObject 100 7 world_7).

(** Packages on two game objects: 1 and 2 for 7, 3 for 8. *)
Definition world_7_8 : World :=
  world_of (CreateCallbackPackage_BlueprintDelegate 100 (Some 3) 1 8 world_7).

(** Game object 7 has the set [{6}]; package 5 is allocated but in no
    set. *)
Definition world_stray : World :=
  {| Instance := 100;
     managers := {[100 := {[7 := {[6]}]}]};
     packages := {[5 := FAkLatentActionEventCallbackPackage 0 1;
                   6 := FAkLatentActionEventCallbackPackage 0 1]};
     EventFinished := ∅;
     trace := [] |}.

(** ** Proper use *)

(** The manager [this] is the process-wide instance and its map owns
    its packages. *)
Definition registry_ok (this : addr) (w : World) : Prop :=
  Instance w = this ∧ this ≠ nullptr ∧
  ∃ m, managers w !! this = Some m ∧ owned w m ∧ unshared m.

(** A call a well-behaved client or sound engine makes in world [w]:
    any create, register, unregister or query on [this]; a remove of a
    handle under the game object whose set holds it; a callback whose
    cookie is a handle in the set of the game object of the event. *)
Definition proper (this : addr) (w : World) (c : Call) : bool :=
  match c with
  | do_ctor _ | do_dtor _ => false
  | do_Create this' _ _ | do_Register this' _
  | do_Unregister this' _ | do_HasActiveEvents this' _ =>
      bool_decide (this' = this)
  | do_Remove this' p g =>
      bool_decide (this' = this) &&
      bool_decide (p ∈ PackageSet_of this g w)
  | do_AkComponentCallback _ info =>
      bool_decide (pCookie info ∈ PackageSet_of this (gameObjID info) w)
  end.

(** Every call of the sequence is proper in the world it is made in.
    A call that stops ends the check: nothing is asked of what cannot
    follow. *)
Fixpoint properly_used (this : addr) (cs : list Call) (w : World) : bool :=
  match cs with
  | [] => true
  | c :: cs' =>
      proper this w c &&
      match perform c w with
      | Done _ w' => properly_used this cs' w'
      | Undefined _ _ => true
      end
  end.

(** The packages of [w] that are not in the map [m]. *)
Definition heap_without (m : PackagesMap) (w : World) (q : addr)
  : option IAkUserEventCallbackPackage :=
  if decide (q ∈ all_packages m) then None else packages w !! q.

(** [registry_ok], with the packages outside the map known to be [T]
    and [T] holding nothing where the map has a handle. *)
Definition tracked (T : addr → option IAkUserEventCallbackPackage)
    (this : addr) (w : World) : Prop :=
  Instance w = this ∧ this ≠ nullptr ∧
  ∃ m, managers w !! this = Some m ∧ owned w m ∧ unshared m ∧
       (∀ q, q ∉ all_packages m → packages w !! q = T q) ∧
       (∀ q, q ∈ all_packages m → T q = None).

(** A session on the manager at 100: three creates (handles 1, 2, 3),
    a marker event and an end-of-event, a remove, a query, an
    unregister and one more create. *)
Definition session : list Call :=
  [do_Create 100 (FAkFunctionPtrEventCallbackPackage
                    (Some (λ _ i, i)) 555 AK_EndOfEvent) 7;
   do_Create 100 (FAkLatentActionEventCallbackPackage 900 AK_EndOfEvent) 7;
   do_Register 100 9;
   do_Create 100 (FAkBlueprintDelegateEventCallbackPackage (Some 3) 5) 8;
   do_AkComponentCallback 4 (mkInfo 3 8);
   do_AkComponentCallback AK_EndOfEvent (mkInfo 2 7);
   do_Remove 100 1 7;
   do_HasActiveEvents 100 7;
   do_Unregister 100 8;
   do_Create 100 (FAkLatentActionEventCallbackPackage 901 AK_EndOfEvent) 9].

(** Manager 100 with its packages, and a second manager at 200 that
    has become the instance. *)
Definition world_two_managers : World :=
  world_of (FAkComponentCallbackManager_ctor 200 world_7_8).

(** Manager 100 with one function-pointer package (handle 1) for game
    object 42; its user function overwrites the cookie of the info. *)
Definition world_42 : World :=
  world_of (CreateCallbackPackage_FunctionPtr 100
              (Some (λ _ i, mkInfo 9 (gameObjID i))) 555 6 42 world_100).

(** * Proofs *)

(** ** Running a computation *)

Ltac monad_unfold :=
  unfold FScopeLock, GameObjectToPackagesMap, set_GameObjectToPackagesMap,
    GetInstance, deref in *;
  unfold emit, set_managers, set_packages, set_Instance, set_EventFinished,
    get_world in *;
  unfold mbind, M_bind, mret, M_ret in *.

Ltac run_step :=
  match goal with
  | H : ?x !! ?k = _ |- context [?x !! ?k] => rewrite H
  | |- context [<[?k := _]> _ !! ?k] => rewrite lookup_insert_eq
  | |- context [base.delete ?k _ !! ?k] => rewrite lookup_delete_eq
  | |- context [decide (?p = nullptr)] => rewrite (decide_False (P := p = nullptr)) by done
  end.

Ltac run := repeat (progress (monad_unfold; cbn; try run_step)).

Ltac trace_eq := cbn; rewrite <- ?app_assoc; cbn; rewrite <- ?app_assoc; reflexivity.

(** [new] never returns [nullptr]. *)
Lemma new_nonnull (X : gset addr) : (fresh ({[nullptr]} ∪ X) =? nullptr) = false.
Proof.
  apply N.eqb_neq. pose proof (is_fresh ({[nullptr]} ∪ X)) as F. set_solver.
Qed.

Lemma map_live this w m :
  managers w !! this = Some m → GameObjectToPackagesMap this w = Done m w.
Proof. intros H. unfold GameObjectToPackagesMap. by rewrite H. Qed.

Lemma delete_run p w pkg :
  p ≠ nullptr → packages w !! p = Some pkg →
  delete p w =
  Done tt {| Instance := Instance w; managers := managers w;
             packages := base.delete p (packages w);
             EventFinished := EventFinished w;
             trace := trace w ++ [operator_delete p] |}.
Proof.
  intros Hp H. unfold delete. rewrite decide_False by done. by run.
Qed.

Lemma delete_dangling p w :
  p ≠ nullptr → packages w !! p = None →
  delete p w = Undefined (DoubleFree p) w.
Proof. intros Hp H. unfold delete. rewrite decide_False by done. by rewrite H. Qed.

Lemma delete_cases p w :
  (∃ w', delete p w = Done tt w' ∧ managers w' = managers w ∧
         Instance w' = Instance w) ∨
  (delete p w = Undefined (DoubleFree p) w ∧ packages w !! p = None).
Proof.
  unfold delete. destruct (decide (p = nullptr)); [left; eauto|].
  destruct (packages w !! p) eqn:E; [left|right; done].
  run. eauto.
Qed.

(** Deleting a list of distinct allocated packages releases exactly
    them. *)
Lemma delete_each_run l : ∀ w,
  NoDup l →
  (∀ p, p ∈ l → p ≠ nullptr ∧ is_Some (packages w !! p)) →
  ∃ w', delete_each l w = Done tt w' ∧
    Instance w' = Instance w ∧ managers w' = managers w ∧
    EventFinished w' = EventFinished w ∧
    trace w' = trace w ++ (operator_delete <$> l) ∧
    ∀ q, packages w' !! q =
         if decide (q ∈ l) then None else packages w !! q.
Proof.
  induction l as [|p l IH]; intros w Hnd Hl.
  - exists w. cbn. rewrite app_nil_r. repeat split; done.
  - apply NoDup_cons in Hnd as [Hp Hnd].
    destruct (Hl p) as [Hnn [pkg Hpkg]]; [set_solver|].
    cbn [delete_each]. unfold mbind, M_bind. rewrite (delete_run _ _ pkg) by done.
    edestruct (IH {| Instance := Instance w; managers := managers w;
             packages := base.delete p (packages w);
             EventFinished := EventFinished w;
             trace := trace w ++ [operator_delete p] |}) as (w' & E & H1 & H2 & H3 & H4 & H5); [done | |].
    { intros q Hq. destruct (Hl q) as [? ?]; [set_solver|]. split; [done|].
      cbn. rewrite lookup_delete_ne; [done | set_solver]. }
    exists w'. rewrite E. cbn in *. repeat split; try done.
    + rewrite H4. by rewrite <- app_assoc.
    + intros q. rewrite H5. destruct (decide (q = p)) as [->|Hne].
      * rewrite decide_False by done. rewrite decide_True by set_solver. apply lookup_delete_eq.
      * rewrite lookup_delete_ne by done.
        destruct (decide (q ∈ l)); [rewrite decide_True by set_solver | rewrite decide_False by set_solver]; done.
Qed.

(** ** The map under [RemovePackageFromSet] *)

Lemma size_pos_nonempty (s : gset addr) : (0 <? size s)%nat = true ↔ s ≠ ∅.
Proof.
  rewrite Nat.ltb_lt. split.
  - intros Hs ->. rewrite size_empty in Hs. lia.
  - intros Hs. destruct (decide (size s = 0)%nat) as [E|]; [|lia].
    apply size_empty_iff in E. exfalso. apply Hs. by apply leibniz_equiv.
Qed.

Lemma lookup_erase_package g p m :
  packages_for (erase_package g p m) g = packages_for m g ∖ {[p]}.
Proof.
  unfold erase_package, packages_for. cbn.
  destruct (size _ =? 0)%nat eqn:E.
  - rewrite lookup_delete_eq. cbn. apply Nat.eqb_eq in E.
    apply size_empty_iff, leibniz_equiv in E.
    rewrite lookup_alter_eq in E. destruct (m !! g); cbn in *; [done | set_solver].
  - rewrite lookup_alter_eq. destruct (m !! g); cbn; [done | set_solver].
Qed.

Lemma lookup_erase_package_ne g g' p m :
  g ≠ g' → erase_package g p m !! g' = m !! g'.
Proof.
  intros Hne. unfold erase_package. cbn.
  destruct (size _ =? 0)%nat.
  - rewrite lookup_delete_ne by done. by rewrite lookup_alter_ne.
  - by rewrite lookup_alter_ne.
Qed.

Lemma erase_package_Some g p m s :
  erase_package g p m !! g = Some s →
  s ≠ ∅ ∧ ∃ s0, m !! g = Some s0 ∧ s = s0 ∖ {[p]}.
Proof.
  unfold erase_package. cbn. destruct (size _ =? 0)%nat eqn:E.
  - by rewrite lookup_delete_eq.
  - rewrite lookup_alter_eq. intros Hs. rewrite lookup_alter_eq in E.
    destruct (m !! g) as [s0|]; [|done]. cbn in *. simplify_eq. split; [|eauto].
    intros Hemp. rewrite Hemp in E. by rewrite size_empty in E.
Qed.

Lemma erase_package_drained g p m :
  packages_for m g ⊆ {[p]} → erase_package g p m !! g = None.
Proof.
  intros Hs. destruct (erase_package g p m !! g) as [s|] eqn:E; [|done].
  apply erase_package_Some in E as (Hne & s0 & Hm & ->).
  unfold packages_for in Hs. rewrite Hm in Hs. cbn in Hs. set_solver.
Qed.

Lemma PackageSet_of_lookup this g w m :
  managers w !! this = Some m → PackageSet_of this g w = packages_for m g.
Proof. intros H. unfold PackageSet_of. by rewrite H. Qed.

Lemma elem_of_all_packages (m : PackagesMap) p :
  p ∈ all_packages m ↔ ∃ g s, m !! g = Some s ∧ p ∈ s.
Proof.
  unfold all_packages. rewrite list_elem_of_bind. split.
  - intros ([g s] & Hp & Hgs). apply elem_of_map_to_list in Hgs.
    apply elem_of_elements in Hp. eauto.
  - intros (g & s & Hgs & Hp). exists (g, s). split.
    + by apply elem_of_elements.
    + by apply elem_of_map_to_list.
Qed.

Lemma erase_package_ok g p m : map_ok m → map_ok (erase_package g p m).
Proof.
  intros Hok g' s. destruct (decide (g = g')) as [<-|Hne].
  - by intros [? _]%erase_package_Some.
  - rewrite lookup_erase_package_ne by done. apply Hok.
Qed.

(** ** What the manager's functions compute *)

Lemma RemovePackageFromSet_run this g p w m :
  managers w !! this = Some m →
  RemovePackageFromSet this g p g w =
  Done tt {| Instance := Instance w;
             managers := <[this := erase_package g p m]> (managers w);
             packages := packages w; EventFinished := EventFinished w;
             trace := trace w ++ [call_RemovePackageFromSet g p] |}.
Proof.
  intros H. unfold RemovePackageFromSet, erase_package. run.
  destruct (size _ =? 0)%nat; run; [|done].
  by rewrite insert_insert_eq.
Qed.

Lemma create_package_run this pkg g w m :
  managers w !! this = Some m →
  let p := fresh ({[nullptr]} ∪ dom (packages w)) in
  create_package this pkg g w =
  Done p {| Instance := Instance w;
            managers := <[this := <[g := {[p]} ∪ packages_for m g]> m]> (managers w);
            packages := <[p := pkg]> (packages w);
            EventFinished := EventFinished w;
            trace := trace w ++ [ScopeLock_enter this; ScopeLock_exit this] |}.
Proof.
  intros H p. unfold create_package, operator_new. run.
  rewrite new_nonnull. run. rewrite <- app_assoc. done.
Qed.

Lemma HasActiveEvents_run this g w m :
  managers w !! this = Some m →
  HasActiveEvents this g w =
  Done (match m !! g with Some s => (0 <? size s)%nat | None => false end)
       {| Instance := Instance w; managers := managers w;
          packages := packages w; EventFinished := EventFinished w;
          trace := trace w ++ [ScopeLock_enter this; ScopeLock_exit this] |}.
Proof.
  intros H. unfold HasActiveEvents. run. by rewrite <- app_assoc.
Qed.

Lemma RemoveCallbackPackage_locked this p g w m :
  managers w !! this = Some m →
  FScopeLock this (
    m ← GameObjectToPackagesMap this ;
    match m !! g with
    | Some _ => RemovePackageFromSet this g p g
    | None => mret tt
    end) w =
  Done tt {| Instance := Instance w;
     managers := match m !! g with
                 | Some _ => <[this := erase_package g p m]> (managers w)
                 | None => managers w end;
     packages := packages w; EventFinished := EventFinished w;
     trace := trace w ++ ScopeLock_enter this ::
                match m !! g with
                | Some _ => [call_RemovePackageFromSet g p]
                | None => [] end ++ [ScopeLock_exit this] |}.
Proof.
  intros H. unfold FScopeLock.
  unfold mbind at 1 2, M_bind at 1 2. unfold emit at 1.
  unfold mbind at 1, M_bind at 1. rewrite (map_live this _ m) by done.
  destruct (m !! g) as [s|].
  - rewrite (RemovePackageFromSet_run _ _ _ _ m) by done. run.
    by rewrite <- !app_assoc.
  - run. by rewrite <- !app_assoc.
Qed.

Lemma RemoveCallbackPackage_split this p g w m :
  managers w !! this = Some m →
  RemoveCallbackPackage this p g w =
  delete p
    {| Instance := Instance w;
       managers := match m !! g with
                   | Some _ => <[this := erase_package g p m]> (managers w)
                   | None => managers w end;
       packages := packages w; EventFinished := EventFinished w;
       trace := trace w ++ ScopeLock_enter this ::
                  match m !! g with
                  | Some _ => [call_RemovePackageFromSet g p]
                  | None => [] end ++ [ScopeLock_exit this] |}.
Proof.
  intros Hm. unfold RemoveCallbackPackage. unfold mbind at 1, M_bind at 1.
  by rewrite (RemoveCallbackPackage_locked _ _ _ _ m).
Qed.

Lemma RemoveCallbackPackage_absent_set this p g w m :
  managers w !! this = Some m → m !! g = None →
  p ≠ nullptr → packages w !! p = None →
  RemoveCallbackPackage this p g w =
  Undefined (DoubleFree p)
    {| Instance := Instance w; managers := managers w;
       packages := packages w; EventFinished := EventFinished w;
       trace := trace w ++ [ScopeLock_enter this; ScopeLock_exit this] |}.
Proof.
  intros Hm Hg Hp Hpk. unfold RemoveCallbackPackage.
  unfold mbind at 1, M_bind at 1.
  rewrite (RemoveCallbackPackage_locked _ _ _ _ m) by done. rewrite Hg.
  by rewrite delete_dangling.
Qed.

Lemma UnregisterGameObject_run this g w m s :
  managers w !! this = Some m → m !! g = Some s →
  set_Forall (live w) s →
  ∃ w', UnregisterGameObject this g w = Done tt w' ∧
    Instance w' = Instance w ∧
    managers w' = <[this := base.delete g m]> (managers w) ∧
    (∀ q, packages w' !! q =
          if decide (q ∈ s) then None else packages w !! q) ∧
    trace w' = trace w ++
      [CancelEventCallbackGameObject g; ScopeLock_enter this] ++
      (operator_delete <$> elements s) ++ [ScopeLock_exit this].
Proof.
  intros Hm Hs Hown. unfold UnregisterGameObject. run.
  match goal with |- context [delete_each _ ?w0] =>
    destruct (delete_each_run (elements s) w0)
      as (w1 & E & I1 & M1 & _ & T1 & P1) end.
  { apply NoDup_elements. }
  { intros p Hp%elem_of_elements. cbn. by apply Hown. }
  rewrite E. cbn in I1, M1, T1, P1. rewrite M1. run.
  eexists. split; [reflexivity|]. cbn. rewrite ?I1, ?M1, ?T1.
  split; [done|]. split; [done|]. split.
  - intros q. rewrite P1. destruct (decide (q ∈ s));
      [rewrite decide_True by by apply elem_of_elements
      |rewrite decide_False by by rewrite elem_of_elements]; done.
  - by rewrite <- !app_assoc.
Qed.

(** ** What the callback computes *)

Lemma HandleAction_run p eType info w pkg :
  packages w !! p = Some pkg →
  ∃ info' w' tr,
    HandleAction p eType info w = Done info' w' ∧
    Instance w' = Instance w ∧ managers w' = managers w ∧
    packages w' = packages w ∧
    trace w' = trace w ++ call_HandleAction p eType :: tr ++ [ret_HandleAction p] ∧
    Forall (λ e, handler_phase e = true) tr.
Proof.
  intros H. unfold HandleAction. run.
  destruct pkg as [[f|] c fl|[d|] fl|a fl]; cbn.
  - eexists _, _, [_]. split; [reflexivity|]. cbn.
    rewrite <- !app_assoc. repeat split; try done. by repeat constructor.
  - eexists _, _, []. split; [reflexivity|]. cbn.
    rewrite <- !app_assoc. repeat split; try done.
  - eexists _, _, [_]. split; [reflexivity|]. cbn.
    rewrite <- !app_assoc. repeat split; try done. by repeat constructor.
  - eexists _, _, []. split; [reflexivity|]. cbn.
    rewrite <- !app_assoc. repeat split; try done.
  - unfold FAkLatentActionEventCallbackPackage_HandleAction.
    destruct (negb (a =? nullptr)); run;
    (eexists _, _, []; split; [reflexivity|]; cbn;
    rewrite <- !app_assoc; repeat split; done).
Qed.

Lemma AkComponentCallback_locked_run inst eType g p w m :
  managers w !! inst = Some m →
  AkComponentCallback_locked inst eType g p w =
  Done (deletes m g eType)
    {| Instance := Instance w;
       managers := if deletes m g eType
                   then <[inst := erase_package g p m]> (managers w)
                   else managers w;
       packages := packages w; EventFinished := EventFinished w;
       trace := trace w ++ ScopeLock_enter inst ::
                  (if deletes m g eType
                   then [call_RemovePackageFromSet g p] else []) ++
                  [ScopeLock_exit inst] |}.
Proof.
  intros H. unfold AkComponentCallback_locked, FScopeLock, deletes.
  unfold mbind at 1 2, M_bind at 1 2. unfold emit at 1.
  unfold mbind at 1, M_bind at 1. rewrite (map_live inst _ m) by done.
  destruct (m !! g) as [s|]; [destruct (eType =? AK_EndOfEvent)|].
  - unfold mbind at 1, M_bind at 1.
    rewrite (RemovePackageFromSet_run _ _ _ _ m) by done. run.
    by rewrite <- !app_assoc.
  - run. by rewrite <- !app_assoc.
  - run. by rewrite <- !app_assoc.
Qed.

Lemma AkComponentCallback_locked_dead inst eType g p w :
  managers w !! inst = None →
  AkComponentCallback_locked inst eType g p w =
  Undefined (UseAfterFree inst)
    {| Instance := Instance w; managers := managers w;
       packages := packages w; EventFinished := EventFinished w;
       trace := trace w ++ [ScopeLock_enter inst] |}.
Proof. intros H. unfold AkComponentCallback_locked. by run. Qed.

(** With a live manager and a live package the callback is its locked
    block followed by the handler and the deferred delete. *)
Lemma AkComponentCallback_split eType info w m pkg :
  Instance w ≠ nullptr → pCookie info ≠ nullptr →
  managers w !! Instance w = Some m →
  packages w !! pCookie info = Some pkg →
  AkComponentCallback eType info w =
  (info' ← (if negb (N.land (uUserFlags pkg) eType =? 0)
            then HandleAction (pCookie info) eType info
            else mret info) ;
   (if deletes m (gameObjID info) eType
    then delete (pCookie info) else mret tt) ;;
   mret info')
  (after_locked (Instance w) eType (gameObjID info) (pCookie info) m w).
Proof.
  intros Hi Hp Hm Hpkg. unfold AkComponentCallback.
  unfold mbind at 1, M_bind at 1. unfold GetInstance.
  apply N.eqb_neq in Hi, Hp. rewrite Hi, Hp. cbn [negb andb].
  unfold mbind at 1, M_bind at 1.
  rewrite (AkComponentCallback_locked_run _ _ _ _ _ m) by done.
  fold (after_locked (Instance w) eType (gameObjID info) (pCookie info) m w).
  unfold mbind at 1, M_bind at 1. unfold deref.
  replace (packages (after_locked _ _ _ _ _ _) !! pCookie info)
    with (Some pkg) by done.
  reflexivity.
Qed.

Lemma AkComponentCallback_run eType info w m pkg :
  Instance w ≠ nullptr → pCookie info ≠ nullptr →
  managers w !! Instance w = Some m →
  packages w !! pCookie info = Some pkg →
  let p := pCookie info in
  let g := gameObjID info in
  let del := deletes m g eType in
  ∃ info' w' mid,
    AkComponentCallback eType info w = Done info' w' ∧
    Instance w' = Instance w ∧
    managers w' = managers (after_locked (Instance w) eType g p m w) ∧
    packages w' = (if del then base.delete p (packages w) else packages w) ∧
    trace w' = trace (after_locked (Instance w) eType g p m w) ++
      mid ++ (if del then [operator_delete p] else []) ∧
    Forall (λ e, handler_phase e = true) mid.
Proof.
  intros Hi Hp Hm Hpkg p g del.
  rewrite (AkComponentCallback_split _ _ _ m pkg) by done.
  fold p g del. set (w1 := after_locked _ _ _ _ _ _).
  assert (H1 : packages w1 !! p = Some pkg) by done.
  assert (∃ info' w2 mid,
    (if negb (N.land (uUserFlags pkg) eType =? 0)
     then HandleAction p eType info else mret info) w1 = Done info' w2 ∧
    Instance w2 = Instance w1 ∧ managers w2 = managers w1 ∧
    packages w2 = packages w1 ∧ trace w2 = trace w1 ++ mid ∧
    Forall (λ e, handler_phase e = true) mid) as (info' & w2 & mid & E & I2 & M2 & P2 & T2 & F2).
  { destruct (negb _).
    - destruct (HandleAction_run p eType info w1 pkg H1)
        as (info' & w2 & tr & E & ? & ? & ? & ? & ?).
      exists info', w2, (call_HandleAction p eType :: tr ++ [ret_HandleAction p]).
      repeat split; try done.
      constructor; [done|]. apply Forall_app. split; [done|]. by repeat constructor.
    - exists info, w1, []. rewrite app_nil_r. by repeat split. }
  unfold mbind at 1, M_bind at 1. rewrite E.
  destruct del.
  - unfold mbind, M_bind. rewrite (delete_run p w2 pkg); [|done|by rewrite P2].
    eexists _, _, mid. split; [reflexivity|]. cbn.
    rewrite I2, M2, P2, T2. rewrite <- !app_assoc. repeat split; try done.
    subst w1. cbn. rewrite <- ?app_assoc. cbn. rewrite <- ?app_assoc. reflexivity.
  - exists info', w2, mid. split; [reflexivity|].
    rewrite I2, M2, P2, T2, app_nil_r. by repeat split.
Qed.

Lemma end_of_event_FunctionPtr_run w m p g s f cookie flags :
  Instance w ≠ nullptr → p ≠ nullptr →
  managers w !! Instance w = Some m →
  packages w !! p = Some (FAkFunctionPtrEventCallbackPackage (Some f) cookie flags) →
  m !! g = Some s →
  N.land flags AK_EndOfEvent ≠ 0 →
  AkComponentCallback AK_EndOfEvent (mkInfo p g) w =
  Done (set_pCookie p (f AK_EndOfEvent (mkInfo cookie g)))
    {| Instance := Instance w;
       managers := <[Instance w := erase_package g p m]> (managers w);
       packages := base.delete p (packages w);
       EventFinished := EventFinished w;
       trace := trace w ++
        [ScopeLock_enter (Instance w); call_RemovePackageFromSet g p;
         ScopeLock_exit (Instance w);
         call_HandleAction p AK_EndOfEvent;
         call_pfnUserCallback AK_EndOfEvent (mkInfo cookie g);
         ret_HandleAction p;
         operator_delete p] |}.
Proof.
  intros Hi Hp Hm Hpkg Hs Hfl.
  rewrite (AkComponentCallback_split AK_EndOfEvent (mkInfo p g) w m _ Hi Hp Hm Hpkg).
  assert (Hd : deletes m g AK_EndOfEvent = true).
  { unfold deletes. by rewrite Hs. }
  cbn [pCookie gameObjID]. rewrite Hd.
  apply N.eqb_neq in Hfl. cbn [uUserFlags]. rewrite Hfl. cbn [negb].
  unfold after_locked. rewrite Hd.
  unfold HandleAction, FAkFunctionPtrEventCallbackPackage_HandleAction, delete.
  run. f_equal. f_equal. trace_eq.
Qed.

Lemma handler_phase_not_delete mid p :
  Forall (λ e, handler_phase e = true) mid → operator_delete p ∉ mid.
Proof.
  intros F Hin. rewrite Forall_forall in F. by apply F in Hin.
Qed.

(** ** The end-of-event scenario *)

(** C1: a FunctionPointer package is registered for game object 42 with
    a flag mask that includes end-of-event, in a registry that is the
    process-wide instance and holds no other package for 42.  When
    [AkComponentCallback] fires end-of-event for 42 with the package as
    cookie, the user function is called exactly once and sees the
    original user cookie in the info, the package is freed, and
    [HasActiveEvents(42)] then returns false. *)
Theorem end_of_event_scenario_42 :
  ∀ (w : World) (m : PackagesMap) (f : AkCallbackFunc) (cookie : addr)
    (flags : uint32),
    Instance w ≠ nullptr →
    managers w !! Instance w = Some m →
    packages_for m 42 = ∅ →
    N.land flags AK_EndOfEvent ≠ 0 →
    ∃ p w1 info' w2 w3,
      CreateCallbackPackage_FunctionPtr (Instance w) (Some f) cookie flags 42 w
        = Done p w1 ∧
      packages w1 !! p =
        Some (FAkFunctionPtrEventCallbackPackage (Some f) cookie flags) ∧
      PackageSet_of (Instance w) 42 w1 = {[p]} ∧
      AkComponentCallback AK_EndOfEvent (mkInfo p 42) w1 = Done info' w2 ∧
      trace w2 = trace w1 ++
        [ScopeLock_enter (Instance w); call_RemovePackageFromSet 42 p;
         ScopeLock_exit (Instance w);
         call_HandleAction p AK_EndOfEvent;
         call_pfnUserCallback AK_EndOfEvent (mkInfo cookie 42);
         ret_HandleAction p;
         operator_delete p] ∧
      info' = set_pCookie p (f AK_EndOfEvent (mkInfo cookie 42)) ∧
      packages w2 !! p = None ∧
      HasActiveEvents (Instance w) 42 w2 = Done false w3.
Proof.
  intros w m f cookie flags Hi Hm Hemp Hfl.
  unfold CreateCallbackPackage_FunctionPtr.
  rewrite (create_package_run _ _ _ _ m) by done.
  set (p := fresh ({[nullptr]} ∪ dom (packages w))).
  assert (Hp : p ≠ nullptr) by (apply N.eqb_neq, new_nonnull).
  set (pkg := FAkFunctionPtrEventCallbackPackage (Some f) cookie flags).
  set (m1 := <[42 := {[p]} ∪ packages_for m 42]> m).
  set (w1 := mkWorld _ _ _ _ _).
  assert (Hm1 : managers w1 !! Instance w1 = Some m1) by apply lookup_insert_eq.
  assert (Hp1 : packages w1 !! p = Some pkg) by apply lookup_insert_eq.
  assert (Hd : deletes m1 42 AK_EndOfEvent = true).
  { unfold deletes, m1. by rewrite lookup_insert_eq. }
  assert (Hdr : erase_package 42 p m1 !! 42 = None).
  { apply erase_package_drained. unfold packages_for, m1.
    rewrite lookup_insert_eq. cbn. rewrite Hemp. set_solver. }
  eexists p, w1, _, _, _.
  split; [reflexivity|]. split; [done|].
  split. { unfold PackageSet_of, packages_for. change (Instance w1) with (Instance w) in Hm1. rewrite Hm1. cbn. unfold m1.
           rewrite lookup_insert_eq. cbn. rewrite Hemp. set_solver. }
  split.
  { apply (end_of_event_FunctionPtr_run w1 m1 p 42
             ({[p]} ∪ packages_for m 42) f cookie flags); try done.
    apply lookup_insert_eq. }
  split; [reflexivity|]. split; [reflexivity|].
  split; [apply lookup_delete_eq|].
  erewrite HasActiveEvents_run; [|apply lookup_insert_eq].
  rewrite Hdr. reflexivity.
Qed.

Lemma end_of_event_scenario_42_witness :
  ∃ p w1 info' w2 w3,
    CreateCallbackPackage_FunctionPtr 100 (Some (λ _ i, i)) 555
      AK_EndOfEvent 42 world_100 = Done p w1 ∧
    AkComponentCallback AK_EndOfEvent (mkInfo p 42) w1 = Done info' w2 ∧
    packages w2 !! p = None ∧
    HasActiveEvents 100 42 w2 = Done false w3.
Proof.
  destruct (end_of_event_scenario_42 world_100 ∅ (λ _ i, i) 555 AK_EndOfEvent)
    as (p & w1 & info' & w2 & w3 & H1 & _ & _ & H2 & _ & _ & H3 & H4).
  - vm_compute. discriminate.
  - reflexivity.
  - reflexivity.
  - vm_compute. discriminate.
  - exists p, w1, info', w2, w3. exact (conj H1 (conj H2 (conj H3 H4))).

Defined.

(** ** Unregistering a game object *)

(** C2, as the code has it: [UnregisterGameObject(id)] frees every
    package of the set of [id] and removes the set from the map, so
    [HasActiveEvents(id)] is false.  A later [RemoveCallbackPackage]
    with one of the freed handles finds no set and leaves the map and
    the allocated packages as they are, but it still deletes the
    handle: it frees the package a second time. *)
Theorem unregister_frees_set_then_remove_double_frees :
  ∀ (this : addr) (g : AkGameObjectID) (w : World) (m : PackagesMap)
    (s : PackageSet),
    managers w !! this = Some m → m !! g = Some s →
    set_Forall (live w) s →
    ∃ w' w'',
      UnregisterGameObject this g w = Done tt w' ∧
      (∀ p, p ∈ s → packages w' !! p = None) ∧
      managers w' !! this = Some (base.delete g m) ∧
      base.delete g m !! g = None ∧
      HasActiveEvents this g w' = Done false w'' ∧
      ∀ p, p ∈ s →
        ∃ w3, RemoveCallbackPackage this p g w' = Undefined (DoubleFree p) w3 ∧
              managers w3 = managers w' ∧ packages w3 = packages w'.
Proof.
  intros this g w m s Hm Hs Hown.
  destruct (UnregisterGameObject_run this g w m s Hm Hs Hown)
    as (w' & E & I & Ms & Ps & T).
  assert (Hm' : managers w' !! this = Some (base.delete g m)).
  { rewrite Ms. apply lookup_insert_eq. }
  assert (Hfreed : ∀ p, p ∈ s → packages w' !! p = None).
  { intros p Hp. rewrite Ps. by rewrite decide_True. }
  eexists w', _. split; [exact E|]. split; [exact Hfreed|].
  split; [exact Hm'|]. split; [apply lookup_delete_eq|]. split.
  - rewrite (HasActiveEvents_run _ _ _ _ Hm'). by rewrite lookup_delete_eq.
  - intros p Hp. eexists. split.
    + apply (RemoveCallbackPackage_absent_set this p g w' _ Hm').
      * apply lookup_delete_eq.
      * by apply Hown.
      * by apply Hfreed.
    + done.
Qed.

Lemma unregister_frees_set_then_remove_double_frees_witness :
  ∃ w' w3,
    UnregisterGameObject 100 7 world_7 = Done tt w' ∧
    packages w' !! 1 = None ∧ packages w' !! 2 = None ∧
    RemoveCallbackPackage 100 2 7 w' = Undefined (DoubleFree 2) w3.
Proof.
  destruct (unregister_frees_set_then_remove_double_frees 100 7 world_7
              {[7 := {[1; 2]}]} {[1; 2]})
    as (w' & w'' & E & Hfree & _ & _ & _ & Hrm).
  - vm_compute. reflexivity.
  - vm_compute. reflexivity.
  - compute_done.
  - destruct (Hrm 2) as (w3 & E3 & _); [compute_done|].
    exists w', w3.
    exact (conj E (conj (Hfree 1 ltac:(compute_done))
                  (conj (Hfree 2 ltac:(compute_done)) E3))).

Defined.

(** Two packages are created for game object 7 and the object is
    unregistered: removing the first handle afterwards does not
    return, it deletes the freed package again. *)
Lemma remove_after_unregister_is_not_a_noop :
  PackageSet_of 100 7 world_7 = {[1; 2]} ∧
  PackageSet_of 100 7 world_7_unregistered = ∅ ∧
  packages world_7_unregistered !! 1 = None ∧
  (∃ w', RemoveCallbackPackage 100 1 7 world_7_unregistered
         = Undefined (DoubleFree 1) w') ∧
  ¬ ∃ w', RemoveCallbackPackage 100 1 7 world_7_unregistered = Done tt w'.
Proof.
  split; [by vm_compute|]. split; [by vm_compute|]. split; [by vm_compute|].
  split.
  - eexists. vm_compute. reflexivity.
  - intros [w' H]. vm_compute in H. discriminate H.
Qed.

(** ** Creating and removing on one game object *)

(** Whatever the client removes, a run that returns leaves the ledger
    in the map, and a run stops only at a remove whose handle holds no
    package. *)
Lemma run_ops_ledger :
  ∀ (ops : list ClientOp) (this : addr) (g : AkGameObjectID) (w : World)
    (m : PackagesMap),
    managers w !! this = Some m →
    match run_ops this g ops (packages_for m g) w with
    | Done ledger w' => PackageSet_of this g w' = ledger
    | Undefined why w' =>
        ∃ p, Remove p ∈ ops ∧ why = DoubleFree p ∧ packages w' !! p = None
    end.
Proof.
  induction ops as [|[pkg|p] ops IH]; intros this g w m Hm.
  - cbn. by apply PackageSet_of_lookup.
  - cbn [run_ops]. unfold mbind at 1, M_bind at 1.
    rewrite (create_package_run _ _ _ _ m) by done. cbn zeta.
    set (p := fresh _). set (w1 := mkWorld _ _ _ _ _).
    specialize (IH this g w1 (<[g := {[p]} ∪ packages_for m g]> m)).
    replace (packages_for (<[g := {[p]} ∪ packages_for m g]> m) g)
      with ({[p]} ∪ packages_for m g) in IH
      by (unfold packages_for at 2; by rewrite lookup_insert_eq).
    specialize (IH (lookup_insert_eq _ _ _)).
    destruct (run_ops _ _ _ _ _) as [ledger w'|why w']; [done|].
    destruct IH as (q & Hq & ? & ?). exists q. by rewrite elem_of_cons; auto.
  - cbn [run_ops]. unfold mbind at 1, M_bind at 1.
    rewrite (RemoveCallbackPackage_split _ _ _ _ m) by done.
    set (w1 := mkWorld _ _ _ _ _).
    assert (∃ m1, managers w1 !! this = Some m1 ∧
                  packages_for m1 g = packages_for m g ∖ {[p]})
      as (m1 & Hm1 & Hset).
    { unfold w1. cbn [managers]. destruct (m !! g) as [s|] eqn:Hs.
      - eexists. split; [apply lookup_insert_eq|]. apply lookup_erase_package.
      - exists m. split; [done|]. unfold packages_for. rewrite Hs. set_solver. }
    destruct (delete_cases p w1) as [(w2 & E & M2 & _)|[E Hnone]]; rewrite E.
    + rewrite <- Hset. rewrite <- M2 in Hm1. specialize (IH this g w2 m1 Hm1).
      destruct (run_ops _ _ _ _ _) as [ledger w'|why w']; [done|].
      destruct IH as (q & Hq & ? & ?). exists q. by rewrite elem_of_cons; auto.
    + exists p. split; [apply list_elem_of_here|done].
Qed.

(** A client that removes only what its ledger holds is never
    stopped. *)
Lemma run_ops_returns (ops : list ClientOp) :
  ∀ (this : addr) (g : AkGameObjectID) (w : World) (m : PackagesMap),
    managers w !! this = Some m →
    set_Forall (live w) (packages_for m g) →
    well_targeted ops (packages_for m g) (dom (packages w)) = true →
    ∃ ledger w', run_ops this g ops (packages_for m g) w = Done ledger w'.
Proof.
  induction ops as [|[pkg|p] ops IH]; intros this g w m Hm Hlive Hwt.
  - cbn. eauto.
  - cbn [run_ops well_targeted] in *. unfold mbind at 1, M_bind at 1.
    rewrite (create_package_run _ _ _ _ m) by done. cbn zeta in *.
    set (p := fresh _) in *. set (w1 := mkWorld _ _ _ _ _).
    specialize (IH this g w1 (<[g := {[p]} ∪ packages_for m g]> m)).
    replace (packages_for (<[g := {[p]} ∪ packages_for m g]> m) g)
      with ({[p]} ∪ packages_for m g) in IH
      by (unfold packages_for at 2; by rewrite lookup_insert_eq).
    apply IH.
    + apply lookup_insert_eq.
    + intros q Hq. unfold live, w1. cbn [packages].
      destruct (decide (q = p)) as [->|Hne].
      * split; [apply N.eqb_neq, new_nonnull|]. rewrite lookup_insert_eq. eauto.
      * rewrite lookup_insert_ne by done. apply Hlive. set_solver.
    + unfold w1. cbn [packages]. by rewrite dom_insert_L.
  - cbn [run_ops well_targeted] in *. unfold mbind at 1, M_bind at 1.
    apply andb_prop in Hwt as [Hp%bool_decide_eq_true_1 Hwt].
    destruct (Hlive p Hp) as [Hnn [pkg Hpkg]].
    rewrite (RemoveCallbackPackage_split _ _ _ _ m) by done.
    destruct (m !! g) as [s|] eqn:Hs;
      [|unfold packages_for in Hp; rewrite Hs in Hp; set_solver].
    rewrite (delete_run _ _ pkg) by done.
    set (w1 := mkWorld _ _ _ _ _).
    specialize (IH this g w1 (erase_package g p m)).
    rewrite lookup_erase_package in IH. apply IH.
    + apply lookup_insert_eq.
    + intros q Hq. unfold live, w1. cbn [packages].
      rewrite lookup_delete_ne by set_solver. apply Hlive. set_solver.
    + unfold w1. cbn [packages]. by rewrite dom_delete_L.
Qed.

(** C3: after any sequence of creates and removes on one game object,
    the set the map holds for it is the client's ledger: the handles
    created for it and not yet removed.  A sequence that removes only
    handles of the ledger runs to its end. *)
Theorem package_set_is_created_minus_removed :
  ∀ (ops : list ClientOp) (this : addr) (g : AkGameObjectID) (w : World)
    (m : PackagesMap),
    managers w !! this = Some m →
    match run_ops this g ops (packages_for m g) w with
    | Done ledger w' => PackageSet_of this g w' = ledger
    | Undefined why w' =>
        ∃ p, Remove p ∈ ops ∧ why = DoubleFree p ∧ packages w' !! p = None
    end ∧
    (set_Forall (live w) (packages_for m g) →
     well_targeted ops (packages_for m g) (dom (packages w)) = true →
     ∃ ledger w',
       run_ops this g ops (packages_for m g) w = Done ledger w' ∧
       PackageSet_of this g w' = ledger).
Proof.
  intros ops this g w m Hm.
  pose proof (run_ops_ledger ops this g w m Hm) as Hled.
  split; [exact Hled|]. intros Hlive Hwt.
  destruct (run_ops_returns ops this g w m Hm Hlive Hwt) as (ledger & w' & E).
  rewrite E in Hled. eauto.
Qed.

Lemma package_set_is_created_minus_removed_witness :
  ∃ ledger w',
    run_ops 100 7
      [Create (FAkLatentActionEventCallbackPackage 900 AK_EndOfEvent);
       Create (FAkFunctionPtrEventCallbackPackage None 0 AK_EndOfEvent);
       Remove 1;
       Create (FAkBlueprintDelegateEventCallbackPackage (Some 3) 1);
       Remove 2]
      (packages_for ∅ 7) world_100 = Done ledger w' ∧
    PackageSet_of 100 7 w' = ledger ∧ ledger = {[3]}.
Proof.
  destruct (package_set_is_created_minus_removed
      [Create (FAkLatentActionEventCallbackPackage 900 AK_EndOfEvent);
       Create (FAkFunctionPtrEventCallbackPackage None 0 AK_EndOfEvent);
       Remove 1;
       Create (FAkBlueprintDelegateEventCallbackPackage (Some 3) 1);
       Remove 2] 100 7 world_100 ∅) as [_ Hrun].
  - reflexivity.
  - destruct Hrun as (ledger & w' & E & Hset).
    + compute_done.
    + vm_compute. reflexivity.
    + exists ledger, w'. split; [exact E|]. split; [exact Hset|].
      vm_compute in E. by injection E as <- _.
Defined.

(** ** Querying *)

(** C4: [HasActiveEvents(id)] returns true exactly when the map has a
    set for [id] and the set is not empty; it is false for an id the
    map does not know and for an id whose last package has just been
    removed. *)
Theorem HasActiveEvents_iff_nonempty_set :
  ∀ (this : addr) (g : AkGameObjectID) (w : World) (m : PackagesMap),
    managers w !! this = Some m →
    ∃ b w',
      HasActiveEvents this g w = Done b w' ∧
      (b = true ↔ ∃ s, m !! g = Some s ∧ s ≠ ∅) ∧
      managers w' = managers w ∧ packages w' = packages w ∧
      Instance w' = Instance w ∧
      (m !! g = None → b = false) ∧
      (∀ p, packages_for m g ⊆ {[p]} →
         ∃ w1 w2, RemovePackageFromSet this g p g w = Done tt w1 ∧
                  HasActiveEvents this g w1 = Done false w2).
Proof.
  intros this g w m H. rewrite (HasActiveEvents_run _ _ _ m) by done.
  eexists _, _. split; [reflexivity|]. cbn. repeat split; try done.
  - destruct (m !! g) as [s|]; [|done]. intros Hs%size_pos_nonempty. eauto.
  - intros (s & -> & Hs). by apply size_pos_nonempty.
  - by intros ->.
  - intros p Hp. rewrite (RemovePackageFromSet_run _ _ _ _ m) by done.
    eexists _, _. split; [reflexivity|].
    erewrite HasActiveEvents_run; [|cbn; apply lookup_insert_eq].
    rewrite erase_package_drained by done. reflexivity.
Qed.

Lemma HasActiveEvents_iff_nonempty_set_witness :
  ∃ b w',
    HasActiveEvents 100 7 world_7 = Done b w' ∧
    (b = true ↔ ∃ s : gset N,
       ({[7 := {[1; 2]}]} : gmap N (gset N)) !! 7 = Some s ∧ s ≠ ∅).
Proof.
  destruct (HasActiveEvents_iff_nonempty_set 100 7 world_7 {[7 := {[1; 2]}]})
    as (b & w' & E & Hb & _).
  - vm_compute. reflexivity.
  - exists b, w'. exact (conj E Hb).

Defined.

(** ** The order of events in the callback *)

(** C5: the events of one [AkComponentCallback] call come in three
    runs: first the locked block, with the removal from the map, then
    the handler, then at most one [delete] of the package.  With a live
    manager and package the handler and the delete run on the world the
    locked block has left, where the package is still allocated and,
    when it is marked for deletion, no longer in the set. *)
Theorem callback_phases_in_order :
  ∀ (in_eType : AkCallbackType) (info : AkCallbackInfo) (w : World),
    ∃ pre mid post,
      trace (world_of (AkComponentCallback in_eType info w)) =
        trace w ++ pre ++ mid ++ post ∧
      Forall (λ e, locked_phase e = true) pre ∧
      Forall (λ e, handler_phase e = true) mid ∧
      (post = [] ∨ post = [operator_delete (pCookie info)]) ∧
      (∀ g p, call_RemovePackageFromSet g p ∈ pre →
              g = gameObjID info ∧ p = pCookie info) ∧
      (∀ m pkg,
         Instance w ≠ nullptr → pCookie info ≠ nullptr →
         managers w !! Instance w = Some m →
         packages w !! pCookie info = Some pkg →
         let w1 := after_locked (Instance w) in_eType (gameObjID info)
                     (pCookie info) m w in
         AkComponentCallback in_eType info w =
           (info' ← (if negb (N.land (uUserFlags pkg) in_eType =? 0)
                     then HandleAction (pCookie info) in_eType info
                     else mret info) ;
            (if deletes m (gameObjID info) in_eType
             then delete (pCookie info) else mret tt) ;;
            mret info') w1 ∧
         packages w1 !! pCookie info = Some pkg ∧
         (deletes m (gameObjID info) in_eType = true →
            post = [operator_delete (pCookie info)] ∧
            pCookie info ∉ PackageSet_of (Instance w) (gameObjID info) w1)).
Proof.
  intros eType info w.
  destruct (decide (Instance w = nullptr)) as [Hi|Hi].
  { exists [], [], []. unfold AkComponentCallback, GetInstance.
    unfold mbind at 1, M_bind at 1. rewrite Hi. cbn.
    rewrite app_nil_r. repeat split; try done; auto. all: by match goal with H : _ ∈ [] |- _ => apply elem_of_nil in H end. }
  destruct (decide (pCookie info = nullptr)) as [Hp|Hp].
  { exists [], [], []. unfold AkComponentCallback, GetInstance.
    unfold mbind at 1, M_bind at 1. rewrite Hp, N.eqb_refl, andb_false_r. cbn.
    rewrite app_nil_r. repeat split; try done; auto. all: by match goal with H : _ ∈ [] |- _ => apply elem_of_nil in H end. }
  assert (Hc : negb (Instance w =? nullptr) && negb (pCookie info =? nullptr) = true).
  { apply N.eqb_neq in Hi, Hp. by rewrite Hi, Hp. }
  destruct (managers w !! Instance w) as [m|] eqn:Hm.
  2:{ exists [ScopeLock_enter (Instance w)], [], [].
      unfold AkComponentCallback, GetInstance.
      unfold mbind at 1, M_bind at 1. rewrite Hc.
      unfold mbind at 1, M_bind at 1.
      rewrite AkComponentCallback_locked_dead by done. cbn.
      split; [done|]. split; [by repeat constructor|]. split; [done|].
      split; [auto|]. split; [|done].
      intros g p Hin. apply elem_of_cons in Hin as [?|Hin]; [done|].
      by apply elem_of_nil in Hin. }
  set (w1 := after_locked (Instance w) eType (gameObjID info) (pCookie info) m w).
  assert (Hpre : ∀ g p, call_RemovePackageFromSet g p ∈
     ScopeLock_enter (Instance w) ::
       (if deletes m (gameObjID info) eType
        then [call_RemovePackageFromSet (gameObjID info) (pCookie info)] else []) ++
       [ScopeLock_exit (Instance w)] → g = gameObjID info ∧ p = pCookie info).
  { intros g p. destruct (deletes _ _ _); cbn; intros Hin;
      repeat (apply elem_of_cons in Hin as [Hin|Hin]; [by simplify_eq|]);
      by apply elem_of_nil in Hin. }
  assert (Hlk : Forall (λ e, locked_phase e = true)
     (ScopeLock_enter (Instance w) ::
       (if deletes m (gameObjID info) eType
        then [call_RemovePackageFromSet (gameObjID info) (pCookie info)] else []) ++
       [ScopeLock_exit (Instance w)])).
  { destruct (deletes _ _ _); by repeat constructor. }
  destruct (packages w !! pCookie info) as [pkg|] eqn:Hpkg.
  2:{ exists (ScopeLock_enter (Instance w) ::
       (if deletes m (gameObjID info) eType
        then [call_RemovePackageFromSet (gameObjID info) (pCookie info)] else []) ++
       [ScopeLock_exit (Instance w)]), [], [].
      unfold AkComponentCallback, GetInstance.
      unfold mbind at 1, M_bind at 1. rewrite Hc.
      unfold mbind at 1, M_bind at 1.
      rewrite (AkComponentCallback_locked_run _ _ _ _ _ m) by done.
      fold w1. unfold mbind at 1, M_bind at 1. unfold deref.
      replace (packages w1 !! pCookie info) with (@None IAkUserEventCallbackPackage) by done.
      cbn [world_of]. rewrite !app_nil_r.
      split; [reflexivity|]. split; [done|]. split; [done|].
      split; [auto|]. split; [done|]. intros; simplify_eq. }
  destruct (AkComponentCallback_run eType info w m pkg Hi Hp Hm Hpkg)
    as (info' & w' & mid & E & I & Ms & Ps & T & F).
  fold w1 in T, Ms.
  exists (ScopeLock_enter (Instance w) ::
       (if deletes m (gameObjID info) eType
        then [call_RemovePackageFromSet (gameObjID info) (pCookie info)] else []) ++
       [ScopeLock_exit (Instance w)]), mid,
     (if deletes m (gameObjID info) eType
      then [operator_delete (pCookie info)] else []).
  split; [rewrite E; cbn [world_of]; rewrite T; unfold w1, after_locked;
          cbn [trace]; by rewrite <- !app_assoc|].
  split; [done|]. split; [done|].
  split; [destruct (deletes _ _ _); auto|]. split; [done|].
  intros m' pkg' _ _ Hm' Hpkg'. simplify_eq. cbn zeta.
  split; [by apply AkComponentCallback_split|]. split; [done|].
  intros Hd. rewrite Hd. split; [done|].
  unfold PackageSet_of, after_locked. cbn [managers]. rewrite Hd.
  rewrite lookup_insert_eq. cbn. rewrite lookup_erase_package. set_solver.
Qed.

Lemma callback_phases_in_order_witness :
  ∃ pre mid post,
    trace (world_of (AkComponentCallback AK_EndOfEvent (mkInfo 1 7) world_7)) =
      trace world_7 ++ pre ++ mid ++ post ∧
    Forall (λ e, locked_phase e = true) pre ∧
    Forall (λ e, handler_phase e = true) mid ∧
    post = [operator_delete 1].
Proof.
  destruct (callback_phases_in_order AK_EndOfEvent (mkInfo 1 7) world_7)
    as (pre & mid & post & T & Fp & Fm & _ & _ & Hgood).
  destruct (Hgood {[7 := {[1; 2]}]}
              (FAkLatentActionEventCallbackPackage 900 AK_EndOfEvent))
    as (_ & _ & Hpost).
  - vm_compute. discriminate.
  - vm_compute. discriminate.
  - vm_compute. reflexivity.
  - vm_compute. reflexivity.
  - destruct (Hpost eq_refl) as [Hp _].
    exists pre, mid, post. exact (conj T (conj Fp (conj Fm Hp))).

Defined.

(** ** The function-pointer handler *)

(** C6: with a function pointer the handler calls the user function
    on an info whose cookie is the user cookie, once, and returns an
    info whose cookie is the package again; without one it does
    nothing. *)
Theorem FunctionPtr_HandleAction_cookie :
  ∀ (this : addr) (pUserCookie : addr) (in_eType : AkCallbackType)
    (info : AkCallbackInfo) (w : World),
    (∀ f : AkCallbackFunc,
      ∃ info' w',
        FAkFunctionPtrEventCallbackPackage_HandleAction
          this (Some f) pUserCookie in_eType info w = Done info' w' ∧
        trace w' = trace w ++
          [call_pfnUserCallback in_eType (set_pCookie pUserCookie info)] ∧
        info' = set_pCookie this (f in_eType (set_pCookie pUserCookie info)) ∧
        pCookie info' = this ∧
        Instance w' = Instance w ∧ managers w' = managers w ∧
        packages w' = packages w ∧ EventFinished w' = EventFinished w) ∧
    FAkFunctionPtrEventCallbackPackage_HandleAction
      this None pUserCookie in_eType info w = Done info w.
Proof.
  intros. split; [intros f; eexists _, _; split; [reflexivity|]|reflexivity].
  cbn. done.
Qed.

(** ** Destruction and construction *)

(** C7: the destructor of a manager whose map holds allocated
    packages, each in one set only, frees every one of them and sets
    [Instance] to null; no other package is touched. *)
Theorem destructor_frees_all_packages :
  ∀ (this : addr) (w : World) (m : PackagesMap),
    managers w !! this = Some m →
    owned w m → unshared m →
    ∃ w',
      FAkComponentCallbackManager_dtor this w = Done tt w' ∧
      Instance w' = nullptr ∧
      (∀ g s p, m !! g = Some s → p ∈ s → packages w' !! p = None) ∧
      (∀ q, q ∉ all_packages m → packages w' !! q = packages w !! q) ∧
      trace w' = trace w ++ (operator_delete <$> all_packages m) ∧
      managers w' = base.delete this (managers w).
Proof.
  intros this w m Hm Hown Hun. unfold FAkComponentCallbackManager_dtor.
  unfold mbind at 1, M_bind at 1. rewrite (map_live _ _ m) by done.
  destruct (delete_each_run (all_packages m) w)
    as (w1 & E & I1 & M1 & _ & T1 & P1).
  { exact Hun. }
  { intros p Hp. unfold owned in Hown. rewrite Forall_forall in Hown.
    by apply Hown. }
  unfold mbind at 1, M_bind at 1. rewrite E. run.
  eexists. split; [reflexivity|]. cbn. rewrite M1, T1.
  split; [done|]. split.
  - intros g s p Hgs Hp. rewrite P1, decide_True; [done|].
    apply elem_of_all_packages. eauto.
  - split; [|done]. intros q Hq. by rewrite P1, decide_False.
Qed.

Lemma destructor_frees_all_packages_witness :
  ∃ w',
    FAkComponentCallbackManager_dtor 100 world_7_8 = Done tt w' ∧
    Instance w' = nullptr ∧
    packages w' !! 1 = None ∧ packages w' !! 2 = None ∧
    packages w' !! 3 = None.
Proof.
  destruct (destructor_frees_all_packages 100 world_7_8
              {[7 := {[1; 2]}; 8 := {[3]}]})
    as (w' & E & I & Hfree & _).
  - vm_compute. reflexivity.
  - compute_done.
  - compute_done.
  - exists w'. split; [exact E|]. split; [exact I|].
    split; [|split].
    + apply (Hfree 7 {[1; 2]} 1); [vm_compute; reflexivity | compute_done].
    + apply (Hfree 7 {[1; 2]} 2); [vm_compute; reflexivity | compute_done].
    + apply (Hfree 8 {[3]} 3); [vm_compute; reflexivity | compute_done].

Defined.

(** C8: constructing a manager while [Instance] is set logs the error,
    completes, and leaves [Instance] pointing at the new manager. *)
Theorem second_ctor_replaces_Instance :
  ∀ (w : World) (this : addr),
    Instance w ≠ nullptr →
    ∃ w', FAkComponentCallbackManager_ctor this w = Done tt w' ∧
      trace w' = trace w ++ [UE_LOG_Error
        "FAkComponentCallbackManager has already been instantiated."] ∧
      Instance w' = this ∧
      GetInstance w' = Done this w' ∧
      managers w' = <[this := ∅]> (managers w) ∧
      packages w' = packages w.
Proof.
  intros w this H. apply N.eqb_neq in H.
  unfold FAkComponentCallbackManager_ctor. run. rewrite H. run.
  eexists. split; [reflexivity|]. done.
Qed.

Lemma second_ctor_replaces_Instance_witness :
  ∃ w', FAkComponentCallbackManager_ctor 200
          (world_of (FAkComponentCallbackManager_ctor 100 empty_world))
        = Done tt w' ∧ Instance w' = 200.
Proof.
  destruct (second_ctor_replaces_Instance
    (world_of (FAkComponentCallbackManager_ctor 100 empty_world)) 200)
    as (w' & E & _ & I & _); [vm_compute; discriminate|].
  exists w'. split; [exact E | exact I].
Defined.

(** ** Deletion on end-of-event *)

(** C9: on end-of-event the callback marks the package for deletion and
    frees it whenever the map has a set for the game object of the
    event, whatever the set contains; without a set the package is
    kept. *)
Theorem end_of_event_deletes_on_set_existence :
  ∀ (w : World) (m : PackagesMap) (pkg : IAkUserEventCallbackPackage)
    (p : addr) (g : AkGameObjectID),
    Instance w ≠ nullptr → p ≠ nullptr →
    managers w !! Instance w = Some m →
    packages w !! p = Some pkg →
    ∃ info' w',
      AkComponentCallback AK_EndOfEvent (mkInfo p g) w = Done info' w' ∧
      (∀ s, m !! g = Some s →
         (∃ w1, AkComponentCallback_locked (Instance w) AK_EndOfEvent g p w
                = Done true w1) ∧
         packages w' = base.delete p (packages w) ∧
         packages w' !! p = None ∧
         ∃ tr, trace w' = trace w ++ tr ++ [operator_delete p]) ∧
      (m !! g = None →
         (∃ w1, AkComponentCallback_locked (Instance w) AK_EndOfEvent g p w
                = Done false w1) ∧
         packages w' = packages w ∧
         ∃ tr, trace w' = trace w ++ tr ∧ operator_delete p ∉ tr).
Proof.
  intros w m pkg p g Hi Hp Hm Hpkg.
  destruct (AkComponentCallback_run AK_EndOfEvent (mkInfo p g) w m pkg
              Hi Hp Hm Hpkg)
    as (info' & w' & mid & E & I & Ms & Ps & T & F).
  cbn [pCookie gameObjID] in Ms, Ps, T, F.
  exists info', w'. split; [exact E|]. clear E.
  rewrite (AkComponentCallback_locked_run _ _ _ _ _ m) by done.
  unfold after_locked in T, Ms. cbn [trace] in T.
  unfold deletes in *. split.
  - intros s Hs. rewrite Hs in Ps, T |- *. rewrite N.eqb_refl in Ps, T |- *.
    split; [eauto|].
    split; [done|]. split; [rewrite Ps; apply lookup_delete_eq|].
    exists ((ScopeLock_enter (Instance w) :: [call_RemovePackageFromSet g p] ++
             [ScopeLock_exit (Instance w)]) ++ mid).
    rewrite T. by rewrite <- !app_assoc.
  - intros Hn. rewrite Hn in Ps, T |- *. split; [eauto|]. split; [done|].
    exists ((ScopeLock_enter (Instance w) :: [] ++
             [ScopeLock_exit (Instance w)]) ++ mid).
    rewrite T, app_nil_r. split; [by rewrite <- !app_assoc|].
    pose proof (handler_phase_not_delete mid p F) as Hnd.
    intros [Hin|Hin]%elem_of_app; [|done].
    cbn in Hin. apply elem_of_cons in Hin as [?|Hin]; [done|].
    apply elem_of_cons in Hin as [?|Hin]; [done|]. by apply elem_of_nil in Hin.
Qed.

Lemma end_of_event_deletes_on_set_existence_witness :
  ∃ info' w',
    AkComponentCallback AK_EndOfEvent (mkInfo 5 7) world_stray
      = Done info' w' ∧
    (5 ∉ PackageSet_of 100 7 world_stray) ∧
    packages w' !! 5 = None ∧ PackageSet_of 100 7 w' = {[6]}.
Proof.
  destruct (end_of_event_deletes_on_set_existence world_stray
      {[7 := {[6]}]} (FAkLatentActionEventCallbackPackage 0 1) 5 7)
    as (info' & w' & E & Hs & _).
  - vm_compute. discriminate.
  - vm_compute. discriminate.
  - reflexivity.
  - reflexivity.
  - exists info', w'. split; [exact E|].
    split; [compute_done|].
    destruct (Hs {[6]} eq_refl) as (_ & _ & Hp & _). split; [exact Hp|].
    revert E. vm_compute. intros E. injection E as _ <-. reflexivity.
Defined.

(** ** No empty set in the map *)

(** [preserves] composes along the monad, so the invariant is carried
    through each function from the primitives up. *)
Section Preserves.
Context (P : World → Prop).

Lemma preserves_ret {A} (a : A) : preserves P (mret a).
Proof. by intros w. Qed.

Lemma preserves_bind {A B} (c : M A) (f : A → M B) :
  preserves P c → (∀ a, preserves P (f a)) → preserves P (c ≫= f).
Proof.
  intros Hc Hf w Hw. unfold mbind, M_bind. specialize (Hc w Hw).
  destruct (c w) as [a w'|why w']; cbn in *; [by apply Hf | done].
Qed.

Lemma preserves_if {A} (b : bool) (c1 c2 : M A) :
  preserves P c1 → preserves P c2 → preserves P (if b then c1 else c2).
Proof. by destruct b. Qed.
End Preserves.

(** The invariant reads the maps only. *)
Lemma preserves_same_managers {A} (c : M A) :
  (∀ w, managers (world_of (c w)) = managers w) → preserves no_empty_set c.
Proof.
  intros H w Hw this m g s. rewrite H. apply Hw.
Qed.

Lemma preserves_emit e : preserves no_empty_set (emit e).
Proof. by apply preserves_same_managers. Qed.

Lemma preserves_set_Instance a : preserves no_empty_set (set_Instance a).
Proof. by apply preserves_same_managers. Qed.

Lemma preserves_set_EventFinished s :
  preserves no_empty_set (set_EventFinished s).
Proof. by apply preserves_same_managers. Qed.

Lemma preserves_get_world : preserves no_empty_set get_world.
Proof. by apply preserves_same_managers. Qed.

Lemma preserves_GetInstance : preserves no_empty_set GetInstance.
Proof. by apply preserves_same_managers. Qed.

Lemma preserves_map this :
  preserves no_empty_set (GameObjectToPackagesMap this).
Proof.
  apply preserves_same_managers. intros w. unfold GameObjectToPackagesMap.
  by destruct (managers w !! this).
Qed.

Lemma preserves_deref p : preserves no_empty_set (deref p).
Proof.
  apply preserves_same_managers. intros w. unfold deref.
  by destruct (packages w !! p).
Qed.

Lemma preserves_operator_new pkg : preserves no_empty_set (operator_new pkg).
Proof. by apply preserves_same_managers. Qed.

Lemma preserves_delete p : preserves no_empty_set (delete p).
Proof.
  apply preserves_same_managers. intros w. unfold delete.
  destruct (decide _); [done|]. by destruct (packages w !! p).
Qed.

Create HintDb preserves.
#[local] Hint Resolve preserves_ret preserves_emit preserves_set_Instance
  preserves_set_EventFinished preserves_get_world preserves_GetInstance
  preserves_map preserves_deref preserves_operator_new preserves_delete
  : preserves.

(** Splits a computation at its binds and branches and closes the
    pieces that are known to keep the invariant. *)
Ltac preserves_steps :=
  repeat first
    [ solve [auto with preserves]
    | apply preserves_bind; [|intros ?]
    | apply preserves_if
    | match goal with
      | |- preserves _ (match ?x with _ => _ end) => destruct x
      end ].

Lemma preserves_delete_each l : preserves no_empty_set (delete_each l).
Proof. induction l; cbn [delete_each]; preserves_steps. Qed.

Lemma preserves_FScopeLock {A} this (c : M A) :
  preserves no_empty_set c → preserves no_empty_set (FScopeLock this c).
Proof. intros Hc. unfold FScopeLock. preserves_steps. Qed.

#[local] Hint Resolve preserves_delete_each : preserves.

(** Storing a map without empty sets keeps the invariant. *)
Lemma preserves_set_map this m :
  map_ok m → preserves no_empty_set (set_GameObjectToPackagesMap this m).
Proof.
  intros Hok w Hw. unfold set_GameObjectToPackagesMap.
  destruct (managers w !! this) as [m0|] eqn:E; [|done]. cbn.
  intros this' m' g s. cbn. destruct (decide (this = this')) as [<-|Hne].
  - rewrite lookup_insert_eq. intros [= <-]. apply Hok.
  - rewrite lookup_insert_ne by done. apply Hw.
Qed.

(** Between its two stores [RemovePackageFromSet] may hold an empty
    set; it does not stop there. *)
Lemma preserves_RemovePackageFromSet this g p :
  preserves no_empty_set (RemovePackageFromSet this g p g).
Proof.
  intros w Hw. destruct (managers w !! this) as [m|] eqn:Hm.
  - rewrite (RemovePackageFromSet_run _ _ _ _ m) by done. cbn.
    intros this' m' g' s. cbn. destruct (decide (this = this')) as [<-|Hne].
    + rewrite lookup_insert_eq. intros [= <-]. apply erase_package_ok.
      intros ??. by apply (Hw this).
    + rewrite lookup_insert_ne by done. apply Hw.
  - unfold RemovePackageFromSet. run. done.
Qed.

#[local] Hint Resolve preserves_RemovePackageFromSet : preserves.

Lemma preserves_HandleAction p eType info :
  preserves no_empty_set (HandleAction p eType info).
Proof.
  unfold HandleAction, FAkFunctionPtrEventCallbackPackage_HandleAction,
    FAkBlueprintDelegateEventCallbackPackage_HandleAction,
    FAkLatentActionEventCallbackPackage_HandleAction.
  preserves_steps.
Qed.

#[local] Hint Resolve preserves_HandleAction : preserves.

Lemma preserves_AkComponentCallback eType info :
  preserves no_empty_set (AkComponentCallback eType info).
Proof.
  unfold AkComponentCallback, AkComponentCallback_locked.
  preserves_steps.
Qed.

Lemma preserves_create_package this pkg g :
  preserves no_empty_set (create_package this pkg g).
Proof.
  unfold create_package.
  apply preserves_bind; [auto with preserves|intros p].
  apply preserves_bind; [|auto with preserves].
  apply preserves_if; [|auto with preserves]. apply preserves_FScopeLock.
  intros w Hw. unfold mbind, M_bind, GameObjectToPackagesMap.
  destruct (managers w !! this) as [m|] eqn:Hm; [|done].
  apply preserves_set_map; [|done].
  intros g' s. destruct (decide (g = g')) as [<-|Hne].
  - rewrite lookup_insert_eq. intros [= <-]. set_solver.
  - rewrite lookup_insert_ne by done. by apply (Hw this).
Qed.

Lemma preserves_RemoveCallbackPackage this p g :
  preserves no_empty_set (RemoveCallbackPackage this p g).
Proof.
  unfold RemoveCallbackPackage. preserves_steps.
Qed.

(** [Optimize::Value] is not [Speed]: registering stores nothing. *)
Lemma preserves_RegisterGameObject this g :
  preserves no_empty_set (RegisterGameObject this g).
Proof. unfold RegisterGameObject. cbn. apply preserves_ret. Qed.

Lemma preserves_UnregisterGameObject this g :
  preserves no_empty_set (UnregisterGameObject this g).
Proof.
  unfold UnregisterGameObject.
  apply preserves_bind; [auto with preserves|intros _].
  apply preserves_FScopeLock.
  intros w Hw. unfold mbind at 1, M_bind at 1. unfold GameObjectToPackagesMap.
  destruct (managers w !! this) as [m|] eqn:Hm; [|done].
  destruct (m !! g) as [s|] eqn:Hs; [|done].
  apply preserves_bind; [apply preserves_delete_each|intros _|done].
  apply preserves_set_map. intros g' s'.
  destruct (decide (g = g')) as [<-|Hne].
  - by rewrite lookup_delete_eq.
  - rewrite lookup_delete_ne by done. by apply (Hw this).
Qed.

Lemma preserves_HasActiveEvents this g :
  preserves no_empty_set (HasActiveEvents this g).
Proof.
  unfold HasActiveEvents. preserves_steps.
Qed.

(** A new manager starts with the empty map. *)
Lemma preserves_ctor this :
  preserves no_empty_set (FAkComponentCallbackManager_ctor this).
Proof.
  intros w Hw.
  assert (H1 : no_empty_set (world_of
            (set_managers (<[this := ∅]> (managers w)) w))).
  { intros this' m g s. cbn [set_managers world_of managers].
    destruct (decide (this = this')) as [<-|Hne].
    - rewrite lookup_insert_eq. intros [= <-]. by rewrite lookup_empty.
    - rewrite lookup_insert_ne by done. apply Hw. }
  unfold FAkComponentCallbackManager_ctor.
  unfold mbind, M_bind, get_world, set_managers, set_Instance, emit in *.
  cbn [world_of] in *. by destruct (negb _).
Qed.

Lemma preserves_dtor this :
  preserves no_empty_set (FAkComponentCallbackManager_dtor this).
Proof.
  unfold FAkComponentCallbackManager_dtor.
  do 3 (apply preserves_bind; [auto with preserves|intros ?]).
  intros w Hw. unfold mbind, M_bind, get_world, set_managers.
  cbn [world_of]. intros this' m' g s. cbn [managers].
  intros [_ H]%lookup_delete_Some Hg. exact (Hw this' m' g s H Hg).
Qed.

(** C10: with [Optimize::Value = MemoryUsage] no call of the manager
    leaves an empty set in a map: whatever sequence of calls is made
    from a world without empty sets, the world it reaches has none. *)
Theorem no_empty_set_invariant :
  ∀ (cs : list Call) (w : World),
    no_empty_set w → no_empty_set (world_of (perform_all cs w)).
Proof.
  assert (Hstep : ∀ c, preserves no_empty_set (perform c)).
  { intros [this|this|this pkg g|this p g|this g|this g|this g|eType info];
      cbn [perform].
    - apply preserves_ctor.
    - apply preserves_dtor.
    - apply preserves_bind;
        [apply preserves_create_package|intros _; apply preserves_ret].
    - apply preserves_RemoveCallbackPackage.
    - apply preserves_RegisterGameObject.
    - apply preserves_UnregisterGameObject.
    - apply preserves_bind;
        [apply preserves_HasActiveEvents|intros _; apply preserves_ret].
    - apply preserves_bind;
        [apply preserves_AkComponentCallback|intros _; apply preserves_ret]. }
  induction cs as [|c cs IH]; intros w Hw; [done|].
  cbn [perform_all]. apply preserves_bind; [apply Hstep|intros _; exact IH|done].
Qed.

Lemma no_empty_set_invariant_witness :
  no_empty_set (world_of (perform_all
    [do_ctor 100;
     do_Create 100 (FAkLatentActionEventCallbackPackage 900 AK_EndOfEvent) 7;
     do_Register 100 9;
     do_AkComponentCallback AK_EndOfEvent (mkInfo 1 7);
     do_Unregister 100 7] empty_world)).
Proof.
  apply no_empty_set_invariant.
  intros this m g s H. vm_compute in H. discriminate H.

Defined.

(** * Further properties of the code *)

(** ** The callback at its edges *)

Lemma AkComponentCallback_null eType info w :
  Instance w = nullptr ∨ pCookie info = nullptr →
  AkComponentCallback eType info w = Done info w.
Proof.
  intros H. unfold AkComponentCallback, GetInstance.
  unfold mbind at 1, M_bind at 1.
  destruct H as [H|H]; rewrite H; [done|].
  by rewrite N.eqb_refl, andb_false_r.
Qed.

Lemma AkComponentCallback_dead_manager eType info w :
  Instance w ≠ nullptr → pCookie info ≠ nullptr →
  managers w !! Instance w = None →
  AkComponentCallback eType info w =
  Undefined (UseAfterFree (Instance w))
    {| Instance := Instance w; managers := managers w;
       packages := packages w; EventFinished := EventFinished w;
       trace := trace w ++ [ScopeLock_enter (Instance w)] |}.
Proof.
  intros Hi Hp Hm. unfold AkComponentCallback, GetInstance.
  unfold mbind at 1, M_bind at 1.
  apply N.eqb_neq in Hi, Hp. rewrite Hi, Hp. cbn [negb andb].
  unfold mbind at 1, M_bind at 1.
  by rewrite AkComponentCallback_locked_dead.
Qed.

Lemma AkComponentCallback_dangling eType info w m :
  Instance w ≠ nullptr → pCookie info ≠ nullptr →
  managers w !! Instance w = Some m →
  packages w !! pCookie info = None →
  AkComponentCallback eType info w =
  Undefined (UseAfterFree (pCookie info))
    (after_locked (Instance w) eType (gameObjID info) (pCookie info) m w).
Proof.
  intros Hi Hp Hm Hpkg. unfold AkComponentCallback, GetInstance.
  unfold mbind at 1, M_bind at 1.
  apply N.eqb_neq in Hi, Hp. rewrite Hi, Hp. cbn [negb andb].
  unfold mbind at 1, M_bind at 1.
  rewrite (AkComponentCallback_locked_run _ _ _ _ _ m) by done.
  fold (after_locked (Instance w) eType (gameObjID info) (pCookie info) m w).
  unfold mbind at 1, M_bind at 1. unfold deref.
  replace (packages (after_locked _ _ _ _ _ _) !! pCookie info)
    with (@None IAkUserEventCallbackPackage) by done.
  reflexivity.
Qed.

Lemma deletes_other_event m g eType :
  eType ≠ AK_EndOfEvent → deletes m g eType = false.
Proof.
  intros H. unfold deletes. destruct (m !! g); [|done]. by apply N.eqb_neq.
Qed.

(** X1: an event other than end-of-event never changes a map and never
    frees a package, whatever the state the callback finds. *)
Theorem other_events_keep_registry_and_heap :
  ∀ (eType : AkCallbackType) (info : AkCallbackInfo) (w : World),
    eType ≠ AK_EndOfEvent →
    managers (world_of (AkComponentCallback eType info w)) = managers w ∧
    packages (world_of (AkComponentCallback eType info w)) = packages w ∧
    Instance (world_of (AkComponentCallback eType info w)) = Instance w.
Proof.
  intros eType info w He.
  destruct (decide (Instance w = nullptr)) as [Hi|Hi];
    [by rewrite AkComponentCallback_null by auto|].
  destruct (decide (pCookie info = nullptr)) as [Hp|Hp];
    [by rewrite AkComponentCallback_null by auto|].
  destruct (managers w !! Instance w) as [m|] eqn:Hm;
    [|by rewrite AkComponentCallback_dead_manager].
  destruct (packages w !! pCookie info) as [pkg|] eqn:Hpkg.
  - destruct (AkComponentCallback_run eType info w m pkg Hi Hp Hm Hpkg)
      as (info' & w' & mid & E & I & Ms & Ps & _).
    rewrite E. cbn [world_of]. rewrite Ms, Ps, I.
    unfold after_locked. cbn [managers].
    by rewrite deletes_other_event.
  - rewrite (AkComponentCallback_dangling _ _ _ m) by done.
    unfold after_locked. cbn [world_of managers packages Instance].
    by rewrite deletes_other_event.
Qed.

Lemma other_events_keep_registry_and_heap_witness :
  managers (world_of (AkComponentCallback 4 (mkInfo 2 7) world_7))
    = managers world_7 ∧
  packages (world_of (AkComponentCallback 4 (mkInfo 2 7) world_7))
    = packages world_7.
Proof.
  destruct (other_events_keep_registry_and_heap 4 (mkInfo 2 7) world_7)
    as (Hm & Hp & _).
  - vm_compute. discriminate.
  - exact (conj Hm Hp).
Defined.

(** The callback, once the locked block is done: the handler's result,
    then the deferred delete. *)
Lemma AkComponentCallback_via_handler eType info w m pkg :
  Instance w ≠ nullptr → pCookie info ≠ nullptr →
  managers w !! Instance w = Some m →
  packages w !! pCookie info = Some pkg →
  let p := pCookie info in
  let w1 := after_locked (Instance w) eType (gameObjID info) p m w in
  ∃ info' w2,
    (if negb (N.land (uUserFlags pkg) eType =? 0)
     then HandleAction p eType info else mret info) w1 = Done info' w2 ∧
    Instance w2 = Instance w ∧ managers w2 = managers w1 ∧
    packages w2 = packages w ∧
    AkComponentCallback eType info w =
    Done info'
      (if deletes m (gameObjID info) eType
       then {| Instance := Instance w2; managers := managers w2;
               packages := base.delete p (packages w2);
               EventFinished := EventFinished w2;
               trace := trace w2 ++ [operator_delete p] |}
       else w2).
Proof.
  intros Hi Hp Hm Hpkg p w1.
  rewrite (AkComponentCallback_split _ _ _ m pkg) by done. fold p w1.
  assert (H1 : packages w1 !! p = Some pkg) by done.
  assert (∃ info' w2,
    (if negb (N.land (uUserFlags pkg) eType =? 0)
     then HandleAction p eType info else mret info) w1 = Done info' w2 ∧
    Instance w2 = Instance w1 ∧ managers w2 = managers w1 ∧
    packages w2 = packages w1) as (info' & w2 & E & I2 & M2 & P2).
  { destruct (negb _).
    - destruct (HandleAction_run p eType info w1 pkg H1)
        as (info' & w2 & tr & E & ? & ? & ? & _). by exists info', w2.
    - by exists info, w1. }
  exists info', w2. split; [exact E|]. split; [exact I2|].
  split; [exact M2|]. split; [exact P2|].
  unfold mbind at 1, M_bind at 1. rewrite E.
  destruct (deletes _ _ _); [|reflexivity].
  unfold mbind, M_bind. rewrite (delete_run p w2 pkg); [done|done|].
  by rewrite P2.
Qed.

Lemma HandleAction_FunctionPtr_run p eType info w f c fl :
  packages w !! p = Some (FAkFunctionPtrEventCallbackPackage (Some f) c fl) →
  HandleAction p eType info w =
  Done (set_pCookie p (f eType (set_pCookie c info)))
    {| Instance := Instance w; managers := managers w;
       packages := packages w; EventFinished := EventFinished w;
       trace := trace w ++
         [call_HandleAction p eType;
          call_pfnUserCallback eType (set_pCookie c info);
          ret_HandleAction p] |}.
Proof.
  intros H. unfold HandleAction, FAkFunctionPtrEventCallbackPackage_HandleAction.
  run. f_equal. f_equal. trace_eq.
Qed.

Lemma HandleAction_idle_run p eType info w pkg :
  packages w !! p = Some pkg →
  match pkg with
  | FAkFunctionPtrEventCallbackPackage None _ _
  | FAkBlueprintDelegateEventCallbackPackage None _ => True
  | FAkLatentActionEventCallbackPackage a _ => a = nullptr
  | _ => False
  end →
  HandleAction p eType info w =
  Done info
    {| Instance := Instance w; managers := managers w;
       packages := packages w; EventFinished := EventFinished w;
       trace := trace w ++ [call_HandleAction p eType; ret_HandleAction p] |}.
Proof.
  intros H Hidle. unfold HandleAction. run.
  destruct pkg as [[f|] c fl|[d|] fl|a fl]; try done.
  - run. f_equal. f_equal. trace_eq.
  - run. f_equal. f_equal. trace_eq.
  - subst a. unfold FAkLatentActionEventCallbackPackage_HandleAction.
    run. f_equal. f_equal. trace_eq.
Qed.

Lemma HandleAction_Blueprint_run p eType info w d fl :
  packages w !! p = Some (FAkBlueprintDelegateEventCallbackPackage (Some d) fl) →
  HandleAction p eType info w =
  Done info
    {| Instance := Instance w; managers := managers w;
       packages := packages w; EventFinished := EventFinished w;
       trace := trace w ++
         [call_HandleAction p eType; AsyncTask_GameThread d eType info;
          ret_HandleAction p] |}.
Proof.
  intros H. unfold HandleAction,
    FAkBlueprintDelegateEventCallbackPackage_HandleAction.
  run. f_equal. f_equal. trace_eq.
Qed.

Lemma HandleAction_Latent_run p eType info w a fl :
  packages w !! p = Some (FAkLatentActionEventCallbackPackage a fl) →
  a ≠ nullptr →
  HandleAction p eType info w =
  Done info
    {| Instance := Instance w; managers := managers w;
       packages := packages w;
       EventFinished := {[a]} ∪ EventFinished w;
       trace := trace w ++ [call_HandleAction p eType; ret_HandleAction p] |}.
Proof.
  intros H Ha. apply N.eqb_neq in Ha.
  unfold HandleAction, FAkLatentActionEventCallbackPackage_HandleAction.
  run. rewrite Ha. run. f_equal. f_equal. trace_eq.
Qed.

(** The handler gives the info back with the package as its cookie. *)
Lemma HandleAction_cookie p eType info w pkg :
  packages w !! p = Some pkg → pCookie info = p →
  ∀ info' w', HandleAction p eType info w = Done info' w' →
    pCookie info' = p ∧
    (match pkg with
     | FAkFunctionPtrEventCallbackPackage (Some _) _ _ => True
     | _ => info' = info
     end).
Proof.
  intros H Hc info' w'. destruct pkg as [[f|] c fl|[d|] fl|a fl].
  - rewrite (HandleAction_FunctionPtr_run _ _ _ _ f c fl) by done.
    by intros [= <- _].
  - rewrite (HandleAction_idle_run _ _ _ _ _ H) by done. by intros [= <- _].
  - rewrite (HandleAction_Blueprint_run _ _ _ _ d fl) by done.
    by intros [= <- _].
  - rewrite (HandleAction_idle_run _ _ _ _ _ H) by done. by intros [= <- _].
  - destruct (decide (a = nullptr)) as [Ha|Ha].
    + rewrite (HandleAction_idle_run _ _ _ _ _ H) by done. by intros [= <- _].
    + rewrite (HandleAction_Latent_run _ _ _ _ a fl) by done.
      by intros [= <- _].
Qed.

(** X2: whatever package the cookie names and whatever the event, the
    callback returns the info with the cookie it came with; only a
    function-pointer package with a user function can change the rest
    of the info. *)
Theorem callback_returns_cookie :
  ∀ (eType : AkCallbackType) (info : AkCallbackInfo) (w : World)
    (m : PackagesMap) (pkg : IAkUserEventCallbackPackage),
    Instance w ≠ nullptr → pCookie info ≠ nullptr →
    managers w !! Instance w = Some m →
    packages w !! pCookie info = Some pkg →
    ∃ info' w',
      AkComponentCallback eType info w = Done info' w' ∧
      pCookie info' = pCookie info ∧
      match pkg with
      | FAkFunctionPtrEventCallbackPackage (Some _) _ _ => True
      | _ => info' = info
      end.
Proof.
  intros eType info w m pkg Hi Hp Hm Hpkg.
  destruct (AkComponentCallback_via_handler eType info w m pkg Hi Hp Hm Hpkg)
    as (info' & w2 & E & _ & _ & _ & Erun).
  eexists info', _. split; [exact Erun|].
  destruct (negb _).
  - eapply (HandleAction_cookie (pCookie info) eType info); [|done|exact E].
    done.
  - injection E as <- _. split; [done|]. by destruct pkg as [[?|] ??|[?|] ?|??].
Qed.

Lemma callback_returns_cookie_witness :
  ∃ info' w',
    AkComponentCallback AK_EndOfEvent (mkInfo 1 7) world_7 = Done info' w' ∧
    info' = mkInfo 1 7.
Proof.
  destruct (callback_returns_cookie AK_EndOfEvent (mkInfo 1 7) world_7
              {[7 := {[1; 2]}]}
              (FAkLatentActionEventCallbackPackage 900 AK_EndOfEvent))
    as (info' & w' & E & _ & Hinfo).
  - vm_compute. discriminate.
  - vm_compute. discriminate.
  - vm_compute. reflexivity.
  - vm_compute. reflexivity.
  - exists info', w'. exact (conj E Hinfo).
Defined.

(** X3: an event the package's flag mask does not select runs no
    handler: no user call, no task, no latent action marked, the info
    untouched.  The end-of-event bookkeeping is done all the same. *)
Theorem unselected_event_runs_no_handler :
  ∀ (eType : AkCallbackType) (info : AkCallbackInfo) (w : World)
    (m : PackagesMap) (pkg : IAkUserEventCallbackPackage),
    Instance w ≠ nullptr → pCookie info ≠ nullptr →
    managers w !! Instance w = Some m →
    packages w !! pCookie info = Some pkg →
    N.land (uUserFlags pkg) eType = 0 →
    ∃ w',
      AkComponentCallback eType info w = Done info w' ∧
      EventFinished w' = EventFinished w ∧
      trace w' = trace w ++
        ScopeLock_enter (Instance w) ::
        (if deletes m (gameObjID info) eType
         then [call_RemovePackageFromSet (gameObjID info) (pCookie info);
               ScopeLock_exit (Instance w);
               operator_delete (pCookie info)]
         else [ScopeLock_exit (Instance w)]) ∧
      packages w' =
        (if deletes m (gameObjID info) eType
         then base.delete (pCookie info) (packages w) else packages w).
Proof.
  intros eType info w m pkg Hi Hp Hm Hpkg Hfl.
  destruct (AkComponentCallback_via_handler eType info w m pkg Hi Hp Hm Hpkg)
    as (info' & w2 & E & _ & _ & _ & Erun).
  rewrite Hfl in E. cbn [N.eqb negb] in E. injection E as <- <-.
  eexists. split; [exact Erun|]. unfold after_locked.
  destruct (deletes _ _ _); cbn; rewrite <- ?app_assoc; done.
Qed.

Lemma unselected_event_runs_no_handler_witness :
  ∃ w',
    AkComponentCallback 4 (mkInfo 1 7) world_7 = Done (mkInfo 1 7) w' ∧
    trace w' = trace world_7 ++ [ScopeLock_enter 100; ScopeLock_exit 100] ∧
    packages w' = packages world_7.
Proof.
  destruct (unselected_event_runs_no_handler 4 (mkInfo 1 7) world_7
              {[7 := {[1; 2]}]}
              (FAkLatentActionEventCallbackPackage 900 AK_EndOfEvent))
    as (w' & E & _ & T & P).
  - vm_compute. discriminate.
  - vm_compute. discriminate.
  - vm_compute. reflexivity.
  - vm_compute. reflexivity.
  - reflexivity.
  - exists w'. exact (conj E (conj T P)).
Defined.

(** X4: a latent-action package whose mask selects the event marks its
    action as finished (none if the action pointer is null) and marks
    no other; it makes no call to user code and leaves the info as it
    was. *)
Theorem latent_action_marked_finished :
  ∀ (eType : AkCallbackType) (info : AkCallbackInfo) (w : World)
    (m : PackagesMap) (a : addr) (fl : uint32),
    Instance w ≠ nullptr → pCookie info ≠ nullptr →
    managers w !! Instance w = Some m →
    packages w !! pCookie info = Some (FAkLatentActionEventCallbackPackage a fl) →
    N.land fl eType ≠ 0 →
    ∃ w',
      AkComponentCallback eType info w = Done info w' ∧
      EventFinished w' =
        (if decide (a = nullptr) then EventFinished w
         else {[a]} ∪ EventFinished w) ∧
      trace w' = trace w ++
        ScopeLock_enter (Instance w) ::
        (if deletes m (gameObjID info) eType
         then [call_RemovePackageFromSet (gameObjID info) (pCookie info)]
         else []) ++
        [ScopeLock_exit (Instance w);
         call_HandleAction (pCookie info) eType;
         ret_HandleAction (pCookie info)] ++
        (if deletes m (gameObjID info) eType
         then [operator_delete (pCookie info)] else []) ∧
      packages w' =
        (if deletes m (gameObjID info) eType
         then base.delete (pCookie info) (packages w) else packages w).
Proof.
  intros eType info w m a fl Hi Hp Hm Hpkg Hfl.
  destruct (AkComponentCallback_via_handler eType info w m _ Hi Hp Hm Hpkg)
    as (info' & w2 & E & _ & _ & _ & Erun).
  apply N.eqb_neq in Hfl. cbn [uUserFlags] in E. rewrite Hfl in E.
  cbn [negb] in E.
  set (w1 := after_locked _ _ _ _ _ _) in E.
  assert (H1 : packages w1 !! pCookie info =
               Some (FAkLatentActionEventCallbackPackage a fl)) by exact Hpkg.
  destruct (decide (a = nullptr)) as [Ha|Ha].
  - rewrite (HandleAction_idle_run _ _ _ _ _ H1) in E by done.
    injection E as <- <-. eexists. split; [exact Erun|].
    unfold w1, after_locked.
    destruct (deletes _ _ _); cbn; rewrite <- ?app_assoc; done.
  - rewrite (HandleAction_Latent_run _ _ _ _ a fl) in E by done.
    injection E as <- <-. eexists. split; [exact Erun|].
    unfold w1, after_locked.
    destruct (deletes _ _ _); cbn; rewrite <- ?app_assoc; done.
Qed.

Lemma latent_action_marked_finished_witness :
  ∃ w',
    AkComponentCallback AK_EndOfEvent (mkInfo 1 7) world_7
      = Done (mkInfo 1 7) w' ∧
    EventFinished w' = {[900]} ∧
    packages w' !! 1 = None.
Proof.
  destruct (latent_action_marked_finished AK_EndOfEvent (mkInfo 1 7) world_7
              {[7 := {[1; 2]}]} 900 AK_EndOfEvent)
    as (w' & E & F & _ & P).
  - vm_compute. discriminate.
  - vm_compute. discriminate.
  - vm_compute. reflexivity.
  - vm_compute. reflexivity.
  - vm_compute. discriminate.
  - exists w'. split; [exact E|]. split.
    + rewrite F. vm_compute. reflexivity.
    + rewrite P. vm_compute. reflexivity.
Defined.

(** X5: a delegate package whose mask selects the event hands exactly
    one task to the game thread, carrying the delegate, the event type
    and the info as they are at the call; on end-of-event the task is
    handed over before the package is deleted.  An unbound delegate
    hands over nothing. *)
Theorem delegate_dispatched_once :
  ∀ (eType : AkCallbackType) (info : AkCallbackInfo) (w : World)
    (m : PackagesMap) (d : option N) (fl : uint32),
    Instance w ≠ nullptr → pCookie info ≠ nullptr →
    managers w !! Instance w = Some m →
    packages w !! pCookie info =
      Some (FAkBlueprintDelegateEventCallbackPackage d fl) →
    N.land fl eType ≠ 0 →
    ∃ w',
      AkComponentCallback eType info w = Done info w' ∧
      EventFinished w' = EventFinished w ∧
      trace w' = trace w ++
        ScopeLock_enter (Instance w) ::
        (if deletes m (gameObjID info) eType
         then [call_RemovePackageFromSet (gameObjID info) (pCookie info)]
         else []) ++
        [ScopeLock_exit (Instance w);
         call_HandleAction (pCookie info) eType] ++
        (match d with
         | Some x => [AsyncTask_GameThread x eType info]
         | None => []
         end) ++
        [ret_HandleAction (pCookie info)] ++
        (if deletes m (gameObjID info) eType
         then [operator_delete (pCookie info)] else []).
Proof.
  intros eType info w m d fl Hi Hp Hm Hpkg Hfl.
  destruct (AkComponentCallback_via_handler eType info w m _ Hi Hp Hm Hpkg)
    as (info' & w2 & E & _ & _ & _ & Erun).
  apply N.eqb_neq in Hfl. cbn [uUserFlags] in E. rewrite Hfl in E.
  cbn [negb] in E.
  set (w1 := after_locked _ _ _ _ _ _) in E.
  assert (H1 : packages w1 !! pCookie info =
               Some (FAkBlueprintDelegateEventCallbackPackage d fl))
    by exact Hpkg.
  destruct d as [x|].
  - rewrite (HandleAction_Blueprint_run _ _ _ _ x fl) in E by done.
    injection E as <- <-. eexists. split; [exact Erun|].
    unfold w1, after_locked.
    destruct (deletes _ _ _); cbn; rewrite <- ?app_assoc; done.
  - rewrite (HandleAction_idle_run _ _ _ _ _ H1) in E by done.
    injection E as <- <-. eexists. split; [exact Erun|].
    unfold w1, after_locked.
    destruct (deletes _ _ _); cbn; rewrite <- ?app_assoc; done.
Qed.

Lemma delegate_dispatched_once_witness :
  ∃ w',
    AkComponentCallback AK_EndOfEvent (mkInfo 3 8) world_7_8
      = Done (mkInfo 3 8) w' ∧
    trace w' = trace world_7_8 ++
      [ScopeLock_enter 100; call_RemovePackageFromSet 8 3;
       ScopeLock_exit 100; call_HandleAction 3 AK_EndOfEvent;
       AsyncTask_GameThread 3 AK_EndOfEvent (mkInfo 3 8);
       ret_HandleAction 3; operator_delete 3].
Proof.
  destruct (delegate_dispatched_once AK_EndOfEvent (mkInfo 3 8) world_7_8
              {[7 := {[1; 2]}; 8 := {[3]}]} (Some 3) 1)
    as (w' & E & _ & T).
  - vm_compute. discriminate.
  - vm_compute. discriminate.
  - vm_compute. reflexivity.
  - vm_compute. reflexivity.
  - vm_compute. discriminate.
  - exists w'. exact (conj E T).
Defined.

Lemma PackageSet_of_erase inst g g' p m w' :
  managers w' !! inst = Some (erase_package g p m) →
  PackageSet_of inst g' w' =
    if decide (g' = g) then packages_for m g ∖ {[p]} else packages_for m g'.
Proof.
  intros H. rewrite (PackageSet_of_lookup _ _ _ _ H).
  destruct (decide (g' = g)) as [->|Hne].
  - apply lookup_erase_package.
  - unfold packages_for. by rewrite lookup_erase_package_ne.
Qed.

(** X6: end-of-event for a package takes that package, and only that
    one, out of the set of the event's game object and frees it; the
    sets of the other game objects and the other packages stay, and
    [HasActiveEvents] keeps answering true while another package is
    left. *)
Theorem end_of_event_removes_only_that_package :
  ∀ (w : World) (m : PackagesMap) (s : PackageSet)
    (pkg : IAkUserEventCallbackPackage) (p : addr) (g : AkGameObjectID),
    Instance w ≠ nullptr → p ≠ nullptr →
    managers w !! Instance w = Some m → m !! g = Some s →
    packages w !! p = Some pkg →
    ∃ info' w' w'',
      AkComponentCallback AK_EndOfEvent (mkInfo p g) w = Done info' w' ∧
      PackageSet_of (Instance w) g w' = s ∖ {[p]} ∧
      (∀ g', g' ≠ g →
         PackageSet_of (Instance w) g' w' = PackageSet_of (Instance w) g' w) ∧
      (∀ q, q ≠ p → packages w' !! q = packages w !! q) ∧
      packages w' !! p = None ∧
      HasActiveEvents (Instance w) g w'
        = Done (bool_decide (s ∖ {[p]} ≠ ∅)) w''.
Proof.
  intros w m s pkg p g Hi Hp Hm Hs Hpkg.
  destruct (AkComponentCallback_run AK_EndOfEvent (mkInfo p g) w m pkg
              Hi Hp Hm Hpkg)
    as (info' & w' & mid & E & I & Ms & Ps & _).
  cbn [pCookie gameObjID] in Ms, Ps. unfold after_locked in Ms.
  cbn [managers] in Ms.
  assert (Hd : deletes m g AK_EndOfEvent = true)
    by (unfold deletes; by rewrite Hs).
  rewrite Hd in Ms, Ps.
  assert (Hm' : managers w' !! Instance w = Some (erase_package g p m))
    by (rewrite Ms; apply lookup_insert_eq).
  eexists info', w', _. split; [exact E|].
  split. { rewrite (PackageSet_of_erase _ g g p m) by done.
           rewrite decide_True by done. unfold packages_for. by rewrite Hs. }
  split. { intros g' Hne. rewrite (PackageSet_of_erase _ g g' p m) by done.
           rewrite decide_False by done.
           by rewrite (PackageSet_of_lookup _ _ _ _ Hm). }
  split. { intros q Hq. rewrite Ps. by apply lookup_delete_ne. }
  split. { rewrite Ps. apply lookup_delete_eq. }
  rewrite (HasActiveEvents_run _ _ _ _ Hm'). f_equal.
  destruct (erase_package g p m !! g) as [s'|] eqn:Es.
  - apply erase_package_Some in Es as (Hne & s0 & Hs0 & ->).
    rewrite Hs in Hs0. injection Hs0 as <-.
    rewrite bool_decide_eq_true_2 by done. by apply size_pos_nonempty.
  - symmetry. apply bool_decide_eq_false_2. intros Hne. 
    pose proof (lookup_erase_package g p m) as Hl.
    unfold packages_for in Hl. rewrite Es, Hs in Hl. cbn in Hl.
    by rewrite <- Hl in Hne.
Qed.

Lemma end_of_event_removes_only_that_package_witness :
  ∃ info' w' w'',
    AkComponentCallback AK_EndOfEvent (mkInfo 1 7) world_7_8
      = Done info' w' ∧
    PackageSet_of 100 7 w' = {[2]} ∧
    PackageSet_of 100 8 w' = {[3]} ∧
    HasActiveEvents 100 7 w' = Done true w''.
Proof.
  destruct (end_of_event_removes_only_that_package world_7_8
              {[7 := {[1; 2]}; 8 := {[3]}]} {[1; 2]}
              (FAkLatentActionEventCallbackPackage 900 AK_EndOfEvent) 1 7)
    as (info' & w' & w'' & E & S7 & S8 & _ & _ & H).
  - vm_compute. discriminate.
  - vm_compute. discriminate.
  - vm_compute. reflexivity.
  - vm_compute. reflexivity.
  - vm_compute. reflexivity.
  - exists info', w', w''. split; [exact E|]. split.
    + transitivity (({[1; 2]} : gset N) ∖ {[1]}); [exact S7|].
      vm_compute. reflexivity.
    + split.
      * transitivity (PackageSet_of (Instance world_7_8) 8 world_7_8).
        -- apply S8. discriminate.
        -- vm_compute. reflexivity.
      * assert (Hb : bool_decide (({[1; 2]} : gset N) ∖ {[1]} ≠ ∅) = true)
          by (vm_compute; reflexivity).
        rewrite Hb in H. exact H.
Defined.

(** ** Creating and removing *)

Lemma new_fresh (w : World) :
  let p := fresh ({[nullptr]} ∪ dom (packages w)) in
  p ≠ nullptr ∧ packages w !! p = None.
Proof.
  cbn zeta. pose proof (is_fresh ({[nullptr]} ∪ dom (packages w))) as F.
  split; [set_solver|]. apply not_elem_of_dom. set_solver.
Qed.

(** Taking out what was just put in gives the map back. *)
Lemma erase_package_insert g p (m : PackagesMap) :
  p ∉ packages_for m g → m !! g ≠ Some ∅ →
  erase_package g p (<[g := {[p]} ∪ packages_for m g]> m) = m.
Proof.
  intros Hp Hne. unfold erase_package. cbn zeta.
  rewrite alter_insert_eq.
  replace (({[p]} ∪ packages_for m g) ∖ {[p]}) with (packages_for m g)
    by set_solver.
  rewrite lookup_insert_eq.
  change (default ∅ (Some (packages_for m g))) with (packages_for m g).
  destruct (m !! g) as [s|] eqn:Hs.
  - replace (packages_for m g) with s by (unfold packages_for; by rewrite Hs).
    destruct (size s =? 0)%nat eqn:Hsz.
    + apply Nat.eqb_eq, size_empty_iff, leibniz_equiv in Hsz. by subst s.
    + by apply insert_id.
  - replace (packages_for m g) with (∅ : gset N)
      by (unfold packages_for; by rewrite Hs).
    rewrite size_empty. cbn. rewrite delete_insert_eq. by apply delete_id.
Qed.

(** X7: a create returns a handle that is not null and was not
    allocated, allocates the package under it, adds the handle to the
    set of the game object (making the set if there was none) and to
    no other set; the game object then has active events. *)
Theorem create_registers_new_handle :
  ∀ (this : addr) (pkg : IAkUserEventCallbackPackage) (g : AkGameObjectID)
    (w : World) (m : PackagesMap),
    managers w !! this = Some m →
    ∃ p w' w'',
      create_package this pkg g w = Done p w' ∧
      p ≠ nullptr ∧ packages w !! p = None ∧
      packages w' !! p = Some pkg ∧
      (∀ q, q ≠ p → packages w' !! q = packages w !! q) ∧
      PackageSet_of this g w' = {[p]} ∪ packages_for m g ∧
      (∀ g', g' ≠ g → PackageSet_of this g' w' = packages_for m g') ∧
      (∀ this', this' ≠ this → managers w' !! this' = managers w !! this') ∧
      HasActiveEvents this g w' = Done true w''.
Proof.
  intros this pkg g w m Hm.
  rewrite (create_package_run _ _ _ _ m) by done. cbn zeta.
  destruct (new_fresh w) as [Hnn Hfr]. cbn zeta in Hnn, Hfr.
  set (p := fresh _) in *. set (w' := mkWorld _ _ _ _ _).
  assert (Hm' : managers w' !! this
                = Some (<[g := {[p]} ∪ packages_for m g]> m))
    by apply lookup_insert_eq.
  eexists p, w', _. split; [done|]. split; [done|]. split; [done|].
  split; [apply lookup_insert_eq|].
  split; [intros q Hq; by apply lookup_insert_ne|].
  split. { rewrite (PackageSet_of_lookup _ _ _ _ Hm'). unfold packages_for at 1.
           by rewrite lookup_insert_eq. }
  split. { intros g' Hne. rewrite (PackageSet_of_lookup _ _ _ _ Hm').
           unfold packages_for. by rewrite lookup_insert_ne. }
  split. { intros this' Hne. unfold w'. cbn [managers].
           by rewrite lookup_insert_ne. }
  rewrite (HasActiveEvents_run _ _ _ _ Hm'). rewrite lookup_insert_eq.
  f_equal. apply size_pos_nonempty. set_solver.
Qed.

Lemma create_registers_new_handle_witness :
  ∃ p w' w'',
    CreateCallbackPackage_BlueprintDelegate 100 (Some 3) 1 7 world_7
      = Done p w' ∧
    p ≠ nullptr ∧ PackageSet_of 100 7 w' = {[p]} ∪ {[1; 2]} ∧
    HasActiveEvents 100 7 w' = Done true w''.
Proof.
  destruct (create_registers_new_handle 100
              (FAkBlueprintDelegateEventCallbackPackage (Some 3) 1) 7 world_7
              {[7 := {[1; 2]}]})
    as (p & w' & w'' & E & Hp & _ & _ & _ & S & _ & _ & H).
  - vm_compute. reflexivity.
  - exists p, w', w''. split; [exact E|]. split; [exact Hp|].
    split; [|exact H]. rewrite S. f_equal.
Defined.

(** X8: removing a handle right after creating it undoes the create:
    the maps and the allocated packages are what they were, only the
    trace has grown, and the delete comes after the lock is released. *)
Theorem create_then_remove_restores :
  ∀ (this : addr) (pkg : IAkUserEventCallbackPackage) (g : AkGameObjectID)
    (w : World) (m : PackagesMap),
    managers w !! this = Some m →
    set_Forall (live w) (packages_for m g) →
    m !! g ≠ Some ∅ →
    ∃ p w1 w2,
      create_package this pkg g w = Done p w1 ∧
      RemoveCallbackPackage this p g w1 = Done tt w2 ∧
      managers w2 = managers w ∧ packages w2 = packages w ∧
      Instance w2 = Instance w ∧ EventFinished w2 = EventFinished w ∧
      trace w2 = trace w ++
        [ScopeLock_enter this; ScopeLock_exit this;
         ScopeLock_enter this; call_RemovePackageFromSet g p;
         ScopeLock_exit this; operator_delete p].
Proof.
  intros this pkg g w m Hm Hlive Hne.
  rewrite (create_package_run _ _ _ _ m) by done. cbn zeta.
  destruct (new_fresh w) as [Hnn Hfr]. cbn zeta in Hnn, Hfr.
  set (p := fresh _) in *. set (w1 := mkWorld _ _ _ _ _).
  assert (Hp : p ∉ packages_for m g).
  { intros Hin. destruct (Hlive p Hin) as [_ [? Hsome]]. congruence. }
  eexists p, w1, _. split; [done|].
  rewrite (RemoveCallbackPackage_split _ _ _ _
             (<[g := {[p]} ∪ packages_for m g]> m))
    by apply lookup_insert_eq.
  rewrite lookup_insert_eq.
  rewrite (delete_run _ _ pkg); [|done|apply lookup_insert_eq].
  split; [reflexivity|]. cbn.
  rewrite erase_package_insert by done.
  rewrite insert_insert_eq, insert_id by done.
  rewrite delete_insert_eq, delete_id by done.
  rewrite <- !app_assoc. done.
Qed.

Lemma create_then_remove_restores_witness :
  ∃ p w1 w2,
    CreateCallbackPackage_FunctionPtr 100 None 0 4 7 world_7 = Done p w1 ∧
    RemoveCallbackPackage 100 p 7 w1 = Done tt w2 ∧
    managers w2 = managers world_7 ∧ packages w2 = packages world_7.
Proof.
  destruct (create_then_remove_restores 100
              (FAkFunctionPtrEventCallbackPackage None 0 4) 7 world_7
              {[7 := {[1; 2]}]})
    as (p & w1 & w2 & E1 & E2 & Hm & Hp & _).
  - vm_compute. reflexivity.
  - compute_done.
  - vm_compute. discriminate.
  - exists p, w1, w2. exact (conj E1 (conj E2 (conj Hm Hp))).
Defined.

(** ** Removing and unregistering *)

(** X9: removing an allocated handle returns: the handle leaves the set
    of the named game object, the other sets are not touched, the
    package is freed after the lock is released, and no other package
    is freed. *)
Theorem remove_frees_handle_after_unlock :
  ∀ (this p : addr) (g : AkGameObjectID) (w : World) (m : PackagesMap)
    (pkg : IAkUserEventCallbackPackage),
    managers w !! this = Some m →
    p ≠ nullptr → packages w !! p = Some pkg →
    ∃ w',
      RemoveCallbackPackage this p g w = Done tt w' ∧
      PackageSet_of this g w' = packages_for m g ∖ {[p]} ∧
      (∀ g', g' ≠ g → PackageSet_of this g' w' = packages_for m g') ∧
      packages w' = base.delete p (packages w) ∧
      trace w' = trace w ++
        ScopeLock_enter this ::
        match m !! g with
        | Some _ => [call_RemovePackageFromSet g p]
        | None => []
        end ++ [ScopeLock_exit this; operator_delete p].
Proof.
  intros this p g w m pkg Hm Hp Hpkg.
  rewrite (RemoveCallbackPackage_split _ _ _ _ m) by done.
  rewrite (delete_run _ _ pkg) by done.
  eexists. split; [reflexivity|]. cbn [managers packages trace].
  destruct (m !! g) as [s|] eqn:Hs.
  - split. { rewrite (PackageSet_of_erase this g g p m)
               by apply lookup_insert_eq. by rewrite decide_True. }
    split. { intros g' Hne.
             rewrite (PackageSet_of_erase this g g' p m)
               by apply lookup_insert_eq. by rewrite decide_False. }
    split; [done|]. by rewrite <- !app_assoc.
  - split. { rewrite (PackageSet_of_lookup this _ _ m) by exact Hm.
             unfold packages_for. rewrite Hs. set_solver. }
    split. { intros g' _. by rewrite (PackageSet_of_lookup this _ _ m)
                               by exact Hm. }
    split; [done|]. by rewrite <- !app_assoc.
Qed.

Lemma remove_frees_handle_after_unlock_witness :
  ∃ w',
    RemoveCallbackPackage 100 2 7 world_7_8 = Done tt w' ∧
    PackageSet_of 100 7 w' = {[1]} ∧ PackageSet_of 100 8 w' = {[3]} ∧
    trace w' = trace world_7_8 ++
      [ScopeLock_enter 100; call_RemovePackageFromSet 7 2;
       ScopeLock_exit 100; operator_delete 2].
Proof.
  destruct (remove_frees_handle_after_unlock 100 2 7 world_7_8
              {[7 := {[1; 2]}; 8 := {[3]}]}
              (FAkFunctionPtrEventCallbackPackage None 0 AK_EndOfEvent))
    as (w' & E & S7 & S8 & _ & T).
  - vm_compute. reflexivity.
  - vm_compute. discriminate.
  - vm_compute. reflexivity.
  - exists w'. split; [exact E|]. split.
    + rewrite S7. vm_compute. reflexivity.
    + split; [|exact T]. rewrite (S8 8) by discriminate.
      vm_compute. reflexivity.
Defined.

(** X10: the set is looked up under the game object the caller names.
    Removing an allocated handle under another game object than its
    own frees the package and leaves the handle in its set, which then
    still counts as active. *)
Theorem remove_under_other_id_leaves_handle :
  ∀ (this p : addr) (g g1 : AkGameObjectID) (w : World) (m : PackagesMap)
    (s1 : PackageSet) (pkg : IAkUserEventCallbackPackage),
    managers w !! this = Some m →
    m !! g1 = Some s1 → p ∈ s1 → g ≠ g1 →
    p ≠ nullptr → packages w !! p = Some pkg →
    ∃ w' w'',
      RemoveCallbackPackage this p g w = Done tt w' ∧
      packages w' !! p = None ∧
      p ∈ PackageSet_of this g1 w' ∧
      HasActiveEvents this g1 w' = Done true w''.
Proof.
  intros this p g g1 w m s1 pkg Hm Hs1 Hin Hne Hp Hpkg.
  rewrite (RemoveCallbackPackage_split _ _ _ _ m) by done.
  rewrite (delete_run _ _ pkg) by done.
  set (w' := mkWorld _ _ _ _ _).
  assert (∃ m', managers w' !! this = Some m' ∧ m' !! g1 = Some s1)
    as (m' & Hm' & Hs1').
  { unfold w'. cbn [managers]. destruct (m !! g) as [s|].
    - eexists. split; [apply lookup_insert_eq|].
      by rewrite lookup_erase_package_ne.
    - eauto. }
  eexists w', _. split; [done|]. split; [apply lookup_delete_eq|].
  split. { rewrite (PackageSet_of_lookup _ _ _ _ Hm'). unfold packages_for.
           by rewrite Hs1'. }
  rewrite (HasActiveEvents_run _ _ _ _ Hm'), Hs1'. f_equal.
  apply size_pos_nonempty. set_solver.
Qed.

Lemma remove_under_other_id_leaves_handle_witness :
  ∃ w' w'',
    RemoveCallbackPackage 100 3 7 world_7_8 = Done tt w' ∧
    packages w' !! 3 = None ∧
    3 ∈ PackageSet_of 100 8 w' ∧
    HasActiveEvents 100 8 w' = Done true w''.
Proof.
  destruct (remove_under_other_id_leaves_handle 100 3 7 8 world_7_8
              {[7 := {[1; 2]}; 8 := {[3]}]} {[3]}
              (FAkBlueprintDelegateEventCallbackPackage (Some 3) 1))
    as (w' & w'' & H).
  - vm_compute. reflexivity.
  - vm_compute. reflexivity.
  - compute_done.
  - discriminate.
  - vm_compute. discriminate.
  - vm_compute. reflexivity.
  - exists w', w''. exact H.
Defined.

Lemma UnregisterGameObject_absent this g w m :
  managers w !! this = Some m → m !! g = None →
  UnregisterGameObject this g w =
  Done tt {| Instance := Instance w; managers := managers w;
             packages := packages w; EventFinished := EventFinished w;
             trace := trace w ++
               [CancelEventCallbackGameObject g; ScopeLock_enter this;
                ScopeLock_exit this] |}.
Proof.
  intros Hm Hg. unfold UnregisterGameObject. run.
  f_equal. f_equal. trace_eq.
Qed.

(** X11: unregistering asks the sound engine to cancel the callbacks of
    the game object first, then frees the packages of its set while
    the lock is held and drops the set; the sets of the other game
    objects and the packages outside the set are not touched. *)
Theorem unregister_cancels_then_frees_under_lock :
  ∀ (this : addr) (g : AkGameObjectID) (w : World) (m : PackagesMap)
    (s : PackageSet),
    managers w !! this = Some m → m !! g = Some s →
    set_Forall (live w) s →
    ∃ w',
      UnregisterGameObject this g w = Done tt w' ∧
      trace w' = trace w ++
        [CancelEventCallbackGameObject g; ScopeLock_enter this] ++
        (operator_delete <$> elements s) ++ [ScopeLock_exit this] ∧
      (∀ q, packages w' !! q =
            if decide (q ∈ s) then None else packages w !! q) ∧
      PackageSet_of this g w' = ∅ ∧
      (∀ g', g' ≠ g → PackageSet_of this g' w' = packages_for m g').
Proof.
  intros this g w m s Hm Hs Hlive.
  destruct (UnregisterGameObject_run this g w m s Hm Hs Hlive)
    as (w' & E & _ & Ms & Ps & T).
  assert (Hm' : managers w' !! this = Some (base.delete g m))
    by (rewrite Ms; apply lookup_insert_eq).
  exists w'. split; [exact E|]. split; [exact T|]. split; [exact Ps|].
  rewrite !(PackageSet_of_lookup _ _ _ _ Hm'). unfold packages_for. split.
  - by rewrite lookup_delete_eq.
  - intros g' Hne. rewrite (PackageSet_of_lookup _ _ _ _ Hm').
    unfold packages_for. by rewrite lookup_delete_ne.
Qed.

Lemma unregister_cancels_then_frees_under_lock_witness :
  ∃ w',
    UnregisterGameObject 100 8 world_7_8 = Done tt w' ∧
    trace w' = trace world_7_8 ++
      [CancelEventCallbackGameObject 8; ScopeLock_enter 100;
       operator_delete 3; ScopeLock_exit 100] ∧
    PackageSet_of 100 7 w' = {[1; 2]}.
Proof.
  destruct (unregister_cancels_then_frees_under_lock 100 8 world_7_8
              {[7 := {[1; 2]}; 8 := {[3]}]} {[3]})
    as (w' & E & T & _ & _ & S7).
  - vm_compute. reflexivity.
  - vm_compute. reflexivity.
  - compute_done.
  - exists w'. split; [exact E|]. split.
    + rewrite T. vm_compute. reflexivity.
    + rewrite (S7 7) by discriminate. vm_compute. reflexivity.
Defined.

(** X12: for a game object without a set, unregistering only asks the
    engine to cancel and takes the lock; so a second unregistering of
    the same game object frees nothing again. *)
Theorem unregister_twice_is_safe :
  ∀ (this : addr) (g : AkGameObjectID) (w : World) (m : PackagesMap),
    managers w !! this = Some m →
    set_Forall (live w) (packages_for m g) →
    ∃ w1 w2,
      UnregisterGameObject this g w = Done tt w1 ∧
      UnregisterGameObject this g w1 = Done tt w2 ∧
      managers w2 = managers w1 ∧ packages w2 = packages w1 ∧
      trace w2 = trace w1 ++
        [CancelEventCallbackGameObject g; ScopeLock_enter this;
         ScopeLock_exit this].
Proof.
  intros this g w m Hm Hlive.
  destruct (m !! g) as [s|] eqn:Hs.
  - destruct (UnregisterGameObject_run this g w m s Hm Hs)
      as (w1 & E & _ & Ms & _).
    { unfold packages_for in Hlive. by rewrite Hs in Hlive. }
    assert (Hm1 : managers w1 !! this = Some (base.delete g m))
      by (rewrite Ms; apply lookup_insert_eq).
    eexists w1, _. split; [exact E|].
    rewrite (UnregisterGameObject_absent _ _ _ _ Hm1)
      by apply lookup_delete_eq.
    done.
  - rewrite (UnregisterGameObject_absent _ _ _ _ Hm Hs).
    eexists _, _. split; [reflexivity|].
    erewrite UnregisterGameObject_absent; [|exact Hm|exact Hs]. done.
Qed.

Lemma unregister_twice_is_safe_witness :
  ∃ w1 w2,
    UnregisterGameObject 100 7 world_7 = Done tt w1 ∧
    UnregisterGameObject 100 7 w1 = Done tt w2 ∧
    packages w2 = packages w1.
Proof.
  destruct (unregister_twice_is_safe 100 7 world_7 {[7 := {[1; 2]}]})
    as (w1 & w2 & E1 & E2 & _ & P & _).
  - vm_compute. reflexivity.
  - compute_done.
  - exists w1, w2. exact (conj E1 (conj E2 P)).
Defined.

(** ** Late callbacks *)

(** X13: a callback that arrives for a package after its game object was
    unregistered finds no set, so it removes nothing and deletes
    nothing; but it goes on to read the flags of the package, which is
    freed: the call has no defined behaviour from there. *)
Theorem callback_after_unregister_reads_freed_package :
  ∀ (g : AkGameObjectID) (w : World) (m : PackagesMap) (s : PackageSet)
    (p : addr) (eType : AkCallbackType),
    Instance w ≠ nullptr →
    managers w !! Instance w = Some m → m !! g = Some s →
    set_Forall (live w) s → p ∈ s →
    ∃ w1 w2,
      UnregisterGameObject (Instance w) g w = Done tt w1 ∧
      AkComponentCallback eType (mkInfo p g) w1
        = Undefined (UseAfterFree p) w2 ∧
      managers w2 = managers w1 ∧ packages w2 = packages w1 ∧
      trace w2 = trace w1 ++
        [ScopeLock_enter (Instance w); ScopeLock_exit (Instance w)].
Proof.
  intros g w m s p eType Hi Hm Hs Hlive Hp.
  destruct (UnregisterGameObject_run _ g w m s Hm Hs Hlive)
    as (w1 & E & I1 & Ms & Ps & _).
  assert (Hm1 : managers w1 !! Instance w1 = Some (base.delete g m))
    by (rewrite Ms, I1; apply lookup_insert_eq).
  assert (Hd : deletes (base.delete g m) g eType = false)
    by (unfold deletes; by rewrite lookup_delete_eq).
  eexists w1, _. split; [exact E|].
  rewrite (AkComponentCallback_dangling eType (mkInfo p g) w1 (base.delete g m)).
  - split; [reflexivity|]. unfold after_locked. cbn. rewrite Hd, I1. done.
  - by rewrite I1.
  - by apply Hlive.
  - exact Hm1.
  - cbn. rewrite Ps. by rewrite decide_True.
Qed.

Lemma callback_after_unregister_reads_freed_package_witness :
  ∃ w2,
    AkComponentCallback AK_EndOfEvent (mkInfo 1 7) world_7_unregistered
      = Undefined (UseAfterFree 1) w2 ∧
    packages w2 = packages world_7_unregistered.
Proof.
  destruct (callback_after_unregister_reads_freed_package 7 world_7
              {[7 := {[1; 2]}]} {[1; 2]} 1 AK_EndOfEvent)
    as (w1 & w2 & E1 & E2 & _ & P & _).
  - vm_compute. discriminate.
  - vm_compute. reflexivity.
  - vm_compute. reflexivity.
  - compute_done.
  - compute_done.
  - assert (w1 = world_7_unregistered) as ->.
    { unfold world_7_unregistered.
      change (UnregisterGameObject 100 7 world_7 = Done () w1) in E1.
      by rewrite E1. }
    exists w2. exact (conj E2 P).
Defined.

(** The destructor on a map that owns its packages. *)
Lemma FAkComponentCallbackManager_dtor_run this w m :
  managers w !! this = Some m → owned w m → unshared m →
  ∃ w',
    FAkComponentCallbackManager_dtor this w = Done tt w' ∧
    Instance w' = nullptr ∧
    managers w' = base.delete this (managers w) ∧
    EventFinished w' = EventFinished w ∧
    trace w' = trace w ++ (operator_delete <$> all_packages m) ∧
    ∀ q, packages w' !! q =
         if decide (q ∈ all_packages m) then None else packages w !! q.
Proof.
  intros Hm Hown Hun. unfold FAkComponentCallbackManager_dtor.
  unfold mbind at 1, M_bind at 1. rewrite (map_live _ _ m) by done.
  destruct (delete_each_run (all_packages m) w)
    as (w1 & E & I1 & M1 & F1 & T1 & P1); [exact Hun| |].
  { intros p Hp. unfold owned in Hown. rewrite Forall_forall in Hown.
    by apply Hown. }
  unfold mbind at 1, M_bind at 1. rewrite E. run.
  eexists. split; [reflexivity|]. cbn. by rewrite M1, T1, F1.
Qed.

(** X14: once a manager has been destroyed, [Instance] is null and every
    callback of the sound engine returns at once: whatever cookie and
    event it brings, nothing is read, changed or freed. *)
Theorem callback_after_destructor_does_nothing :
  ∀ (this : addr) (w : World) (m : PackagesMap),
    managers w !! this = Some m → owned w m → unshared m →
    ∃ w',
      FAkComponentCallbackManager_dtor this w = Done tt w' ∧
      GetInstance w' = Done nullptr w' ∧
      ∀ eType info, AkComponentCallback eType info w' = Done info w'.
Proof.
  intros this w m Hm Hown Hun.
  destruct (FAkComponentCallbackManager_dtor_run this w m Hm Hown Hun)
    as (w' & E & I & _).
  exists w'. split; [exact E|]. split.
  - unfold GetInstance. by rewrite I.
  - intros eType info. apply AkComponentCallback_null. by left.
Qed.

Lemma callback_after_destructor_does_nothing_witness :
  ∃ w',
    FAkComponentCallbackManager_dtor 100 world_7_8 = Done tt w' ∧
    AkComponentCallback AK_EndOfEvent (mkInfo 1 7) w'
      = Done (mkInfo 1 7) w'.
Proof.
  destruct (callback_after_destructor_does_nothing 100 world_7_8
              {[7 := {[1; 2]}; 8 := {[3]}]})
    as (w' & E & _ & H).
  - vm_compute. reflexivity.
  - compute_done.
  - compute_done.
  - exists w'. exact (conj E (H AK_EndOfEvent (mkInfo 1 7))).
Defined.

(** ** Ownership under proper use *)

Lemma owned_iff w m :
  owned w m ↔ ∀ g s p, m !! g = Some s → p ∈ s → live w p.
Proof.
  unfold owned. rewrite Forall_forall. split.
  - intros H g s p Hg Hp. apply H, elem_of_all_packages. eauto.
  - intros H p (g & s & Hg & Hp)%elem_of_all_packages. eauto.
Qed.

Lemma unshared_iff m :
  unshared m ↔
  ∀ g1 g2 s1 s2 p, m !! g1 = Some s1 → m !! g2 = Some s2 →
    p ∈ s1 → p ∈ s2 → g1 = g2.
Proof.
  unfold unshared, all_packages. split.
  - intros Hnd g1 g2 s1 s2 p H1 H2 Hp1 Hp2.
    apply elem_of_map_to_list in H1, H2.
    revert Hnd H1 H2. generalize (map_to_list m). intros l.
    induction l as [|x l IH]; [by intros _ ?%elem_of_nil|].
    cbn. rewrite NoDup_app. intros (Hx & Hdis & Hl) H1 H2.
    apply elem_of_cons in H1 as [H1|H1], H2 as [H2|H2].
    + congruence.
    + subst x. exfalso. apply (Hdis p); [by apply elem_of_elements|].
      apply list_elem_of_bind. exists (g2, s2). split; [|done].
      by apply elem_of_elements.
    + subst x. exfalso. apply (Hdis p); [by apply elem_of_elements|].
      apply list_elem_of_bind. exists (g1, s1). split; [|done].
      by apply elem_of_elements.
    + by apply IH.
  - intros H. apply NoDup_bind.
    + intros [g1 s1] [g2 s2] p H1%elem_of_map_to_list H2%elem_of_map_to_list
        Hp1%elem_of_elements Hp2%elem_of_elements. cbn in *.
      assert (g1 = g2) as -> by eauto. congruence.
    + intros ? _. apply NoDup_elements.
    + apply NoDup_map_to_list.
Qed.

Lemma tracked_start this w m :
  registry_ok this w → managers w !! this = Some m →
  tracked (heap_without m w) this w.
Proof.
  intros (Hi & Hn & m' & Hm' & Hown & Hun) Hm.
  assert (m' = m) as -> by congruence.
  split; [done|]. split; [done|]. exists m. split; [done|].
  split; [done|]. split; [done|]. unfold heap_without. split.
  - intros q Hq. by rewrite decide_False.
  - intros q Hq. by rewrite decide_True.
Qed.

Lemma tracked_registry_ok T this w : tracked T this w → registry_ok this w.
Proof.
  intros (Hi & Hn & m & Hm & Hown & Hun & _). split; [done|]. split; [done|].
  eauto.
Qed.

(** A step that changes neither the map nor the packages. *)
Lemma tracked_same T this w w' :
  tracked T this w →
  Instance w' = Instance w → managers w' = managers w →
  packages w' = packages w → tracked T this w'.
Proof.
  intros (Hi & Hn & m & Hm & Hown & Hun & HT & HJ) I' M' P'.
  split; [congruence|]. split; [done|]. exists m.
  split; [by rewrite M'|]. split; [|split; [done|]].
  - rewrite owned_iff in *. intros g s p Hg Hp.
    destruct (Hown g s p Hg Hp) as [? ?]. split; [done|]. by rewrite P'.
  - split; [|done]. intros q Hq. rewrite P'. by apply HT.
Qed.

(** A step that allocates a package and puts its handle in a set. *)
Lemma tracked_grow T this w m g p pkg w' :
  tracked T this w → managers w !! this = Some m →
  p ≠ nullptr → packages w !! p = None →
  Instance w' = Instance w →
  managers w' = <[this := <[g := {[p]} ∪ packages_for m g]> m]> (managers w) →
  packages w' = <[p := pkg]> (packages w) →
  tracked T this w'.
Proof.
  intros (Hi & Hn & m0 & Hm0 & Hown & Hun & HT & HJ) Hm Hp Hfr I' M' P'.
  assert (m0 = m) as -> by congruence.
  rewrite owned_iff in Hown. rewrite unshared_iff in Hun.
  assert (Hnotin : ∀ g' s', m !! g' = Some s' → p ∉ s').
  { intros g' s' Hg' Hin. destruct (Hown _ _ _ Hg' Hin) as [_ [? ?]].
    congruence. }
  assert (Hsets : ∀ g' s' q,
            <[g := {[p]} ∪ packages_for m g]> m !! g' = Some s' → q ∈ s' →
            (q = p ∧ g' = g) ∨ (q ≠ p ∧ ∃ s, m !! g' = Some s ∧ q ∈ s)).
  { intros g' s' q Hg' Hq. destruct (decide (g' = g)) as [->|Hne].
    - rewrite lookup_insert_eq in Hg'. injection Hg' as <-.
      apply elem_of_union in Hq as [Hq|Hq]; [left; set_solver|right].
      unfold packages_for in Hq. destruct (m !! g) as [s|] eqn:Hs;
        [|set_solver]. cbn in Hq. split; [|eauto].
      intros ->. by apply (Hnotin g s).
    - rewrite lookup_insert_ne in Hg' by done. right. split; [|eauto].
      intros ->. by apply (Hnotin g' s'). }
  split; [congruence|]. split; [done|].
  exists (<[g := {[p]} ∪ packages_for m g]> m).
  split; [rewrite M'; apply lookup_insert_eq|].
  split; [|split; [|split]].
  - rewrite owned_iff. intros g' s' q Hg' Hq. unfold live. rewrite P'.
    destruct (Hsets _ _ _ Hg' Hq) as [[-> _]|[Hne (s & Hs & Hin)]].
    + split; [done|]. rewrite lookup_insert_eq. eauto.
    + rewrite lookup_insert_ne by done. by apply (Hown g' s).
  - rewrite unshared_iff. intros g1 g2 s1 s2 q H1 H2 Hq1 Hq2.
    destruct (Hsets _ _ _ H1 Hq1) as [[-> ->]|[Hne1 (t1 & Ht1 & Hin1)]],
             (Hsets _ _ _ H2 Hq2) as [[? ->]|[Hne2 (t2 & Ht2 & Hin2)]];
      try done. eauto.
  - intros q Hq. rewrite P'.
    assert (q ≠ p).
    { intros ->. apply Hq, elem_of_all_packages.
      exists g, ({[p]} ∪ packages_for m g). rewrite lookup_insert_eq.
      split; [done|set_solver]. }
    rewrite lookup_insert_ne by done. apply HT.
    intros (g' & s' & Hg' & Hin)%elem_of_all_packages.
    apply Hq, elem_of_all_packages. destruct (decide (g' = g)) as [->|Hne].
    + exists g, ({[p]} ∪ packages_for m g). rewrite lookup_insert_eq.
      split; [done|]. unfold packages_for. rewrite Hg'. set_solver.
    + exists g', s'. by rewrite lookup_insert_ne.
  - intros q (g' & s' & Hg' & Hin)%elem_of_all_packages.
    destruct (Hsets _ _ _ Hg' Hin) as [[-> _]|[Hne (s & Hs & Hin')]].
    + rewrite <- Hfr. symmetry. apply HT.
      intros (g1 & s1 & Hg1 & Hin1)%elem_of_all_packages.
      by apply (Hnotin g1 s1).
    + apply HJ, elem_of_all_packages. eauto.
Qed.

(** A step that frees the handles [F] of the map and takes them out
    of their sets. *)
Lemma tracked_shrink T this w m m' (F : gset addr) w' :
  tracked T this w → managers w !! this = Some m →
  Instance w' = Instance w → managers w' !! this = Some m' →
  (∀ q, packages w' !! q = if decide (q ∈ F) then None else packages w !! q) →
  (∀ q, q ∈ F → q ∈ all_packages m) →
  (∀ g' s', m' !! g' = Some s' → ∃ s, m !! g' = Some s ∧ s' ⊆ s ∧ s' ## F) →
  (∀ q, q ∈ all_packages m → q ∉ F → q ∈ all_packages m') →
  tracked T this w'.
Proof.
  intros (Hi & Hn & m0 & Hm0 & Hown & Hun & HT & HJ) Hm I' M' P' HF Hsub Hkeep.
  assert (m0 = m) as -> by congruence.
  rewrite owned_iff in Hown. rewrite unshared_iff in Hun.
  split; [congruence|]. split; [done|]. exists m'. split; [done|].
  split; [|split; [|split]].
  - rewrite owned_iff. intros g' s' q Hg' Hq.
    destruct (Hsub _ _ Hg') as (s & Hs & Hss & Hdis).
    destruct (Hown g' s q Hs) as [? ?]; [set_solver|].
    split; [done|]. rewrite P', decide_False; [done|set_solver].
  - rewrite unshared_iff. intros g1 g2 s1 s2 q H1 H2 Hq1 Hq2.
    destruct (Hsub _ _ H1) as (t1 & Ht1 & Hs1 & _).
    destruct (Hsub _ _ H2) as (t2 & Ht2 & Hs2 & _).
    apply (Hun g1 g2 t1 t2 q); set_solver.
  - intros q Hq. rewrite P'. destruct (decide (q ∈ F)) as [HqF|HqF].
    + symmetry. by apply HJ, HF.
    + apply HT. intros Hin. by apply Hq, Hkeep.
  - intros q (g' & s' & Hg' & Hin)%elem_of_all_packages.
    destruct (Hsub _ _ Hg') as (s & Hs & Hss & _).
    apply HJ, elem_of_all_packages. exists g', s. set_solver.
Qed.

Lemma packages_for_elem (m : PackagesMap) g p :
  p ∈ packages_for m g → ∃ s, m !! g = Some s ∧ p ∈ s.
Proof.
  unfold packages_for. destruct (m !! g) as [s|]; [eauto|set_solver].
Qed.

Lemma erase_package_shrinks g p m s :
  unshared m → m !! g = Some s → p ∈ s →
  (∀ g' s', erase_package g p m !! g' = Some s' →
     ∃ s0, m !! g' = Some s0 ∧ s' ⊆ s0 ∧ s' ## ({[p]} : gset addr)) ∧
  (∀ q, q ∈ all_packages m → q ∉ ({[p]} : gset addr) →
        q ∈ all_packages (erase_package g p m)).
Proof.
  intros Hun Hs Hp. rewrite unshared_iff in Hun. split.
  - intros g' s' Hg'. destruct (decide (g' = g)) as [->|Hne].
    + apply erase_package_Some in Hg' as (_ & s0 & Hs0 & ->).
      exists s0. split; [done|]. set_solver.
    + rewrite lookup_erase_package_ne in Hg' by done. exists s'.
      split; [done|]. split; [done|].
      intros q Hq Hqp%elem_of_singleton. subst q. apply Hne.
      by apply (Hun g' g s' s p).
  - intros q (g' & s' & Hg' & Hin)%elem_of_all_packages Hq.
    apply elem_of_all_packages. destruct (decide (g' = g)) as [->|Hne].
    + assert (s' = s) as -> by congruence.
      pose proof (lookup_erase_package g p m) as Hl. unfold packages_for in Hl.
      rewrite Hs in Hl. cbn in Hl.
      destruct (erase_package g p m !! g) as [t|] eqn:Et; cbn in Hl.
      * exists g, t. split; [done|]. set_solver.
      * set_solver.
    + exists g', s'. by rewrite lookup_erase_package_ne.
Qed.

Lemma delete_set_shrinks g (m : PackagesMap) s :
  unshared m → m !! g = Some s →
  (∀ g' s', base.delete g m !! g' = Some s' →
     ∃ s0, m !! g' = Some s0 ∧ s' ⊆ s0 ∧ s' ## s) ∧
  (∀ q, q ∈ all_packages m → q ∉ s → q ∈ all_packages (base.delete g m)).
Proof.
  intros Hun Hs. rewrite unshared_iff in Hun. split.
  - intros g' s' [Hne Hg']%lookup_delete_Some. exists s'.
    split; [done|]. split; [done|].
    intros q Hq Hq'. apply Hne. by apply (Hun g g' s s' q).
  - intros q (g' & s' & Hg' & Hin)%elem_of_all_packages Hq.
    apply elem_of_all_packages. exists g', s'. split; [|done].
    apply lookup_delete_Some. split; [|done]. intros <-. congruence.
Qed.

(** One proper call returns and keeps the ownership. *)
Lemma proper_step T this w c :
  tracked T this w → proper this w c = true →
  ∃ w', perform c w = Done tt w' ∧ tracked T this w'.
Proof.
  intros Htr Hc.
  pose proof Htr as (Hi & Hn & m & Hm & Hown & Hun & _).
  pose proof Hown as Hown'. rewrite owned_iff in Hown'.
  destruct c as [?|?|this' pkg g|this' p g|this' g|this' g|this' g|eType info];
    cbn [proper] in Hc; try done.
  - (* create *)
    apply bool_decide_eq_true_1 in Hc as ->. cbn [perform].
    unfold mbind at 1, M_bind at 1.
    rewrite (create_package_run _ _ _ _ m) by done. cbn zeta.
    destruct (new_fresh w) as [Hnn Hfr]. cbn zeta in Hnn, Hfr.
    eexists. split; [reflexivity|].
    by eapply (tracked_grow T this w m g).
  - (* remove *)
    apply andb_prop in Hc as [->%bool_decide_eq_true_1 Hp%bool_decide_eq_true_1].
    rewrite (PackageSet_of_lookup _ _ _ _ Hm) in Hp.
    apply packages_for_elem in Hp as (s & Hs & Hp).
    destruct (Hown' g s p Hs Hp) as [Hnn [pkg Hpkg]].
    cbn [perform]. rewrite (RemoveCallbackPackage_split _ _ _ _ m) by done.
    rewrite Hs, (delete_run _ _ pkg) by done.
    eexists. split; [reflexivity|].
    destruct (erase_package_shrinks g p m s Hun Hs Hp) as [Hsub Hkeep].
    eapply (tracked_shrink T this w m (erase_package g p m) {[p]});
      try done.
    + apply lookup_insert_eq.
    + intros q. cbn [packages]. destruct (decide (q ∈ ({[p]} : gset addr))).
      * assert (q = p) as -> by set_solver. apply lookup_delete_eq.
      * apply lookup_delete_ne. set_solver.
    + intros q Hq%elem_of_singleton. subst q.
      apply elem_of_all_packages. eauto.
  - (* register *)
    exists w. split; [reflexivity|done].
  - (* unregister *)
    apply bool_decide_eq_true_1 in Hc as ->. cbn [perform].
    destruct (m !! g) as [s|] eqn:Hs.
    + destruct (UnregisterGameObject_run this g w m s Hm Hs)
        as (w' & E & I' & Ms & Ps & _).
      { intros p Hp. by apply (Hown' g s). }
      exists w'. split; [exact E|].
      destruct (delete_set_shrinks g m s Hun Hs) as [Hsub Hkeep].
      eapply (tracked_shrink T this w m (base.delete g m) s); try done.
      * rewrite Ms. apply lookup_insert_eq.
      * intros q Hq. apply elem_of_all_packages. eauto.
    + rewrite (UnregisterGameObject_absent _ _ _ _ Hm Hs).
      eexists. split; [reflexivity|]. by eapply tracked_same.
  - (* query *)
    apply bool_decide_eq_true_1 in Hc as ->. cbn [perform].
    unfold mbind, M_bind. rewrite (HasActiveEvents_run _ _ _ _ Hm).
    eexists. split; [reflexivity|]. by eapply tracked_same.
  - (* callback *)
    apply bool_decide_eq_true_1 in Hc.
    rewrite (PackageSet_of_lookup _ _ _ _ Hm) in Hc.
    apply packages_for_elem in Hc as (s & Hs & Hp).
    destruct (Hown' _ s _ Hs Hp) as [Hnn [pkg Hpkg]].
    rewrite <- Hi in Hm, Hn.
    destruct (AkComponentCallback_run eType info w m pkg Hn Hnn Hm Hpkg)
      as (info' & w' & mid & E & I' & Ms & Ps & _).
    cbn [perform]. unfold mbind, M_bind. rewrite E.
    eexists. split; [reflexivity|].
    unfold after_locked in Ms. cbn [managers] in Ms.
    rewrite Hi in Hm, Ms.
    destruct (deletes m (gameObjID info) eType) eqn:Hd.
    + destruct (erase_package_shrinks (gameObjID info) (pCookie info) m s
                  Hun Hs Hp) as [Hsub Hkeep].
      eapply (tracked_shrink T this w m
                (erase_package (gameObjID info) (pCookie info) m)
                {[pCookie info]}); try done.
      * rewrite Ms. apply lookup_insert_eq.
      * intros q. rewrite Ps.
        destruct (decide (q ∈ ({[pCookie info]} : gset addr))).
        -- assert (q = pCookie info) as -> by set_solver.
           apply lookup_delete_eq.
        -- apply lookup_delete_ne. set_solver.
      * intros q Hq%elem_of_singleton. subst q.
        apply elem_of_all_packages. eauto.
    + by eapply tracked_same.
Qed.

Lemma proper_run T this cs :
  ∀ w, tracked T this w → properly_used this cs w = true →
  ∃ w', perform_all cs w = Done tt w' ∧ tracked T this w'.
Proof.
  induction cs as [|c cs IH]; intros w Htr Hcs; [by exists w|].
  cbn [properly_used] in Hcs. apply andb_prop in Hcs as [Hc Hcs].
  destruct (proper_step T this w c Htr Hc) as (w1 & E1 & Htr1).
  rewrite E1 in Hcs. destruct (IH w1 Htr1 Hcs) as (w' & E' & Htr').
  exists w'. split; [|done].
  cbn [perform_all]. unfold mbind, M_bind. by rewrite E1.
Qed.

(** X15: proper use is safe.  From a world in which the manager is the
    instance and owns the packages of its map (each allocated, each in
    one set), every sequence of proper calls runs to its end without
    undefined behaviour and leaves such a world. *)
Theorem proper_use_never_stops :
  ∀ (this : addr) (cs : list Call) (w : World),
    registry_ok this w → properly_used this cs w = true →
    ∃ w', perform_all cs w = Done tt w' ∧ registry_ok this w'.
Proof.
  intros this cs w Hok Hcs.
  pose proof Hok as (_ & _ & m & Hm & _).
  destruct (proper_run _ this cs w (tracked_start this w m Hok Hm) Hcs)
    as (w' & E & Htr).
  exists w'. split; [exact E|]. by eapply tracked_registry_ok.
Qed.

(** X16: no package outlives the manager.  After any sequence of proper
    calls the destructor returns, and the allocated packages are then
    those that were allocated outside the map at the start: whatever
    was created through the manager has been freed, once, and nothing
    else has. *)
Theorem proper_use_then_destructor_leaves_no_package :
  ∀ (this : addr) (cs : list Call) (w : World) (m : PackagesMap),
    registry_ok this w → managers w !! this = Some m →
    properly_used this cs w = true →
    ∃ w' w'',
      perform_all cs w = Done tt w' ∧
      FAkComponentCallbackManager_dtor this w' = Done tt w'' ∧
      Instance w'' = nullptr ∧
      ∀ q, packages w'' !! q = heap_without m w q.
Proof.
  intros this cs w m Hok Hm Hcs.
  destruct (proper_run _ this cs w (tracked_start this w m Hok Hm) Hcs)
    as (w' & E & _ & _ & m' & Hm' & Hown & Hun & HT & HJ).
  destruct (FAkComponentCallbackManager_dtor_run this w' m' Hm' Hown Hun)
    as (w'' & E' & I' & _ & _ & _ & P').
  exists w', w''. split; [exact E|]. split; [exact E'|]. split; [exact I'|].
  intros q. rewrite P'. destruct (decide (q ∈ all_packages m')).
  - symmetry. by apply HJ.
  - by apply HT.
Qed.

Lemma registry_ok_world_100 : registry_ok 100 world_100.
Proof.
  split; [reflexivity|]. split; [discriminate|]. exists ∅.
  split; [reflexivity|]. split; compute_done.
Qed.

Lemma proper_use_never_stops_witness :
  ∃ w', perform_all session world_100 = Done tt w' ∧ registry_ok 100 w'.
Proof.
  apply (proper_use_never_stops 100 session world_100).
  - exact registry_ok_world_100.
  - vm_compute. reflexivity.
Defined.

Lemma proper_use_then_destructor_leaves_no_package_witness :
  ∃ w' w'',
    perform_all session world_100 = Done tt w' ∧
    PackageSet_of 100 9 w' = {[1]} ∧
    FAkComponentCallbackManager_dtor 100 w' = Done tt w'' ∧
    packages w'' = ∅.
Proof.
  destruct (proper_use_then_destructor_leaves_no_package 100 session
              world_100 ∅)
    as (w' & w'' & E & E' & _ & H).
  - exact registry_ok_world_100.
  - reflexivity.
  - vm_compute. reflexivity.
  - exists w', w''. split; [exact E|]. split.
    + revert E. vm_compute. intros E. injection E as <-. reflexivity.
    + split; [exact E'|]. apply map_eq. intros q. rewrite H.
      unfold heap_without. rewrite decide_False.
      * vm_compute. reflexivity.
      * vm_compute. apply not_elem_of_nil.
Defined.

(** X17: a function-pointer package whose mask selects the event has its
    user function called exactly once, with the user cookie in the
    info, for end-of-event and for any other event alike; what the
    function leaves in the info is returned with the package back as
    cookie, and only end-of-event under an existing set frees the
    package. *)
Theorem user_function_called_once_with_user_cookie :
  ∀ (eType : AkCallbackType) (info : AkCallbackInfo) (w : World)
    (m : PackagesMap) (f : AkCallbackFunc) (c : addr) (fl : uint32),
    Instance w ≠ nullptr → pCookie info ≠ nullptr →
    managers w !! Instance w = Some m →
    packages w !! pCookie info =
      Some (FAkFunctionPtrEventCallbackPackage (Some f) c fl) →
    N.land fl eType ≠ 0 →
    ∃ w',
      AkComponentCallback eType info w =
        Done (set_pCookie (pCookie info) (f eType (set_pCookie c info))) w' ∧
      trace w' = trace w ++
        ScopeLock_enter (Instance w) ::
        (if deletes m (gameObjID info) eType
         then [call_RemovePackageFromSet (gameObjID info) (pCookie info)]
         else []) ++
        [ScopeLock_exit (Instance w);
         call_HandleAction (pCookie info) eType;
         call_pfnUserCallback eType (set_pCookie c info);
         ret_HandleAction (pCookie info)] ++
        (if deletes m (gameObjID info) eType
         then [operator_delete (pCookie info)] else []) ∧
      packages w' =
        (if deletes m (gameObjID info) eType
         then base.delete (pCookie info) (packages w) else packages w).
Proof.
  intros eType info w m f c fl Hi Hp Hm Hpkg Hfl.
  destruct (AkComponentCallback_via_handler eType info w m _ Hi Hp Hm Hpkg)
    as (info' & w2 & E & _ & _ & _ & Erun).
  apply N.eqb_neq in Hfl. cbn [uUserFlags] in E. rewrite Hfl in E.
  cbn [negb] in E.
  set (w1 := after_locked _ _ _ _ _ _) in E.
  assert (H1 : packages w1 !! pCookie info =
               Some (FAkFunctionPtrEventCallbackPackage (Some f) c fl))
    by exact Hpkg.
  rewrite (HandleAction_FunctionPtr_run _ _ _ _ f c fl) in E by done.
  injection E as <- <-. eexists. split; [exact Erun|].
  unfold w1, after_locked.
  destruct (deletes _ _ _); cbn; rewrite <- ?app_assoc; done.
Qed.

Lemma user_function_called_once_with_user_cookie_witness :
  ∃ w',
    AkComponentCallback 4 (mkInfo 1 42) world_42 = Done (mkInfo 1 42) w' ∧
    trace w' = trace world_42 ++
      [ScopeLock_enter 100; ScopeLock_exit 100;
       call_HandleAction 1 4; call_pfnUserCallback 4 (mkInfo 555 42);
       ret_HandleAction 1] ∧
    packages w' = packages world_42.
Proof.
  destruct (user_function_called_once_with_user_cookie 4 (mkInfo 1 42)
              world_42 {[42 := {[1]}]} (λ _ i, mkInfo 9 (gameObjID i)) 555 6)
    as (w' & E & T & P).
  - vm_compute. discriminate.
  - vm_compute. discriminate.
  - vm_compute. reflexivity.
  - vm_compute. reflexivity.
  - vm_compute. discriminate.
  - assert (Hd : deletes ({[42 := {[1]}]} : gmap N (gset N)) 42 4 = false)
      by (vm_compute; reflexivity).
    cbn [gameObjID pCookie] in T, P. rewrite Hd in T, P.
    exists w'. split; [exact E|]. split; [exact T|exact P].
Defined.

(** X18: the destructor sets [Instance] to null without looking at it.
    When another manager is the instance, destroying this one leaves
    that manager and its packages in place but cuts it off: every
    later callback returns at once. *)
Theorem destructor_cuts_off_other_manager :
  ∀ (a b : addr) (w : World) (ma mb : PackagesMap),
    managers w !! a = Some ma → owned w ma → unshared ma →
    a ≠ b → Instance w = b → managers w !! b = Some mb →
    ∃ w',
      FAkComponentCallbackManager_dtor a w = Done tt w' ∧
      Instance w' = nullptr ∧
      managers w' !! b = Some mb ∧
      (∀ q, q ∉ all_packages ma → packages w' !! q = packages w !! q) ∧
      ∀ eType info, AkComponentCallback eType info w' = Done info w'.
Proof.
  intros a b w ma mb Hma Hown Hun Hab Hi Hmb.
  destruct (FAkComponentCallbackManager_dtor_run a w ma Hma Hown Hun)
    as (w' & E & I & Ms & _ & _ & Ps).
  exists w'. split; [exact E|]. split; [exact I|].
  split; [by rewrite Ms, lookup_delete_ne|]. split.
  - intros q Hq. by rewrite Ps, decide_False.
  - intros eType info. apply AkComponentCallback_null. by left.
Qed.

Lemma destructor_cuts_off_other_manager_witness :
  Instance world_two_managers = 200 ∧
  ∃ w',
    FAkComponentCallbackManager_dtor 100 world_two_managers = Done tt w' ∧
    Instance w' = nullptr ∧
    managers w' !! 200 = Some ∅ ∧
    AkComponentCallback AK_EndOfEvent (mkInfo 1 7) w' = Done (mkInfo 1 7) w'.
Proof.
  split; [reflexivity|].
  destruct (destructor_cuts_off_other_manager 100 200 world_two_managers
              {[7 := {[1; 2]}; 8 := {[3]}]} ∅)
    as (w' & E & I & M & _ & H).
  - vm_compute. reflexivity.
  - compute_done.
  - compute_done.
  - discriminate.
  - reflexivity.
  - vm_compute. reflexivity.
  - exists w'. exact (conj E (conj I (conj M (H AK_EndOfEvent (mkInfo 1 7))))).
Defined.
